(** * PWAInstallDemo: a shallow embedding of src/PWAInstallDemo.tsx

    The component keeps three React state cells (the deferred install
    prompt, [isStandalone], [isInstalled]), reads two host facts (the
    display-mode media query and [navigator.standalone]), and reads and
    writes one [localStorage] key.  Handlers are embedded as computations in
    a small state monad over the page ([World]), the two that call
    [localStorage.setItem] in its variant with exceptions; host notifications
    and button clicks are the events of a step function. *)

From stdpp Require Import base option list gmap strings.

Set Default Proof Using "Type".

(** ** Host values *)

(** A JavaScript value, as far as [(navigator as any).standalone] can be one. *)
Inductive JsValue : Type :=
  | JsUndefined
  | JsNull
  | JsBool (b : bool)
  | JsNumber (n : Z)
  | JsString (s : string).

(** [v === true] *)
Definition strict_eq_true (v : JsValue) : bool :=
  match v with
  | JsBool true => true
  | _ => false
  end.

(** [choice.outcome] of the [userChoice] promise. *)
Inductive Outcome : Type := accepted | dismissed.

Record UserChoice : Type := {
  outcome : Outcome;
  platform : string;
}.

(** The [BeforeInstallPromptEvent] object: an opaque capability, told apart
    from other such objects by identity only. *)
Record BeforeInstallPromptEvent : Type := {
  event_id : nat;
}.

#[global] Instance BeforeInstallPromptEvent_eq_dec : EqDecision BeforeInstallPromptEvent.
Proof. solve_decision. Defined.

(** What the component reads from [window] and [navigator]. *)
Record Host : Type := {
  (** [window.matchMedia("(display-mode: standalone)").matches] *)
  display_mode_standalone : bool;
  (** [(navigator as any).standalone] *)
  navigator_standalone : JsValue;
  (** ["serviceWorker" in navigator] *)
  has_serviceWorker : bool;
  (** [storage_accepts s k v]: [localStorage.setItem(k, v)] on the store
      [s] returns; when it does not, the call throws [QuotaExceededError]
      and the store stays as it is *)
  storage_accepts : gmap string string → string → string → bool;
}.

(** Calls into the host that the component makes, in program order. *)
Inductive Effect : Type :=
  | Alert (msg : string)
  | Reload
  | Prompt (e : BeforeInstallPromptEvent)
  | PreventDefault (e : BeforeInstallPromptEvent)
  | SetHref (url : string)
  | SetTimeout (ms : nat)
  | RegisterServiceWorker (path : string)
  | ConsoleLog (msg : string).

(** ** The page *)

Record World : Type := {
  host : Host;
  localStorage : gmap string string;
  (** React state, lines 11-14 *)
  deferredPrompt : option BeforeInstallPromptEvent;
  isStandalone : bool;
  isInstalled : bool;
  (** the two [window] listeners of the mount effect are registered *)
  listening : bool;
  (** [then] callbacks registered on [userChoice], one entry per call *)
  awaiting : list BeforeInstallPromptEvent;
  (** fallback alerts scheduled by [setTimeout] and not yet run *)
  timers : nat;
  (** the service worker registration promise is not settled yet *)
  sw_pending : bool;
  (** [window.location.reload()] was called by the running handler *)
  reloading : bool;
  effects : list Effect;
}.

(** ** State monad of the handlers *)

Definition M (A : Type) : Type := World → A * World.

#[global] Instance M_ret : MRet M := λ A a w, (a, w).
#[global] Instance M_bind : MBind M := λ A B f m w, let '(a, w') := m w in f a w'.

Definition exec {A} (m : M A) (w : World) : World := (m w).2.
Definition eval {A} (m : M A) (w : World) : A := (m w).1.

(** Code that may throw: [None] is an exception on its way out, with the
    page as it was left at the throw. *)
Definition T (A : Type) : Type := World → option A * World.

#[global] Instance T_ret : MRet T := λ A a w, (Some a, w).
#[global] Instance T_bind : MBind T := λ A B f m w,
  match m w with
  | (Some a, w') => f a w'
  | (None, w') => (None, w')
  end.

(** Code that does not throw, inside code that may. *)
Definition lift {A} (m : M A) : T A := λ w, let '(a, w') := m w in (Some a, w').

(** A handler whose exception nobody catches: the event loop (or the
    rejected promise of a [then]) ends it there, and what it did before the
    throw stays done. *)
Definition uncaught (t : T unit) : M unit := λ w, ((), (t w).2).

Definition PWA_INSTALLED : string := "pwa_installed".

Definition getHost : M Host := λ w, (host w, w).

Definition getDeferredPrompt : M (option BeforeInstallPromptEvent) :=
  λ w, (deferredPrompt w, w).

Definition getAwaiting : M (list BeforeInstallPromptEvent) :=
  λ w, (awaiting w, w).

Definition getTimers : M nat := λ w, (timers w, w).

Definition localStorage_getItem (k : string) : M (option string) :=
  λ w, (localStorage w !! k, w).

Definition with_localStorage (s : gmap string string) (w : World) : World :=
  {| host := host w; localStorage := s;
     deferredPrompt := deferredPrompt w; isStandalone := isStandalone w;
     isInstalled := isInstalled w; listening := listening w;
     awaiting := awaiting w; timers := timers w; sw_pending := sw_pending w;
     reloading := reloading w; effects := effects w |}.

Definition localStorage_setItem (k v : string) : T unit :=
  λ w, if storage_accepts (host w) (localStorage w) k v
       then (Some (), with_localStorage (<[k := v]> (localStorage w)) w)
       else (None, w).

Definition localStorage_removeItem (k : string) : M unit :=
  λ w, ((), with_localStorage (delete k (localStorage w)) w).

Definition setDeferredPrompt (p : option BeforeInstallPromptEvent) : M unit :=
  λ w, ((),
  {| host := host w; localStorage := localStorage w;
     deferredPrompt := p; isStandalone := isStandalone w;
     isInstalled := isInstalled w; listening := listening w;
     awaiting := awaiting w; timers := timers w; sw_pending := sw_pending w;
     reloading := reloading w; effects := effects w |}).

Definition setIsStandalone (b : bool) : M unit :=
  λ w, ((),
  {| host := host w; localStorage := localStorage w;
     deferredPrompt := deferredPrompt w; isStandalone := b;
     isInstalled := isInstalled w; listening := listening w;
     awaiting := awaiting w; timers := timers w; sw_pending := sw_pending w;
     reloading := reloading w; effects := effects w |}).

Definition setIsInstalled (b : bool) : M unit :=
  λ w, ((),
  {| host := host w; localStorage := localStorage w;
     deferredPrompt := deferredPrompt w; isStandalone := isStandalone w;
     isInstalled := b; listening := listening w;
     awaiting := awaiting w; timers := timers w; sw_pending := sw_pending w;
     reloading := reloading w; effects := effects w |}).

Definition setListening (b : bool) : M unit :=
  λ w, ((),
  {| host := host w; localStorage := localStorage w;
     deferredPrompt := deferredPrompt w; isStandalone := isStandalone w;
     isInstalled := isInstalled w; listening := b;
     awaiting := awaiting w; timers := timers w; sw_pending := sw_pending w;
     reloading := reloading w; effects := effects w |}).

Definition setAwaiting (l : list BeforeInstallPromptEvent) : M unit :=
  λ w, ((),
  {| host := host w; localStorage := localStorage w;
     deferredPrompt := deferredPrompt w; isStandalone := isStandalone w;
     isInstalled := isInstalled w; listening := listening w;
     awaiting := l; timers := timers w; sw_pending := sw_pending w;
     reloading := reloading w; effects := effects w |}).

Definition setTimers (n : nat) : M unit :=
  λ w, ((),
  {| host := host w; localStorage := localStorage w;
     deferredPrompt := deferredPrompt w; isStandalone := isStandalone w;
     isInstalled := isInstalled w; listening := listening w;
     awaiting := awaiting w; timers := n; sw_pending := sw_pending w;
     reloading := reloading w; effects := effects w |}).

Definition setSwPending (b : bool) : M unit :=
  λ w, ((),
  {| host := host w; localStorage := localStorage w;
     deferredPrompt := deferredPrompt w; isStandalone := isStandalone w;
     isInstalled := isInstalled w; listening := listening w;
     awaiting := awaiting w; timers := timers w; sw_pending := b;
     reloading := reloading w; effects := effects w |}).

Definition setReloading (b : bool) : M unit :=
  λ w, ((),
  {| host := host w; localStorage := localStorage w;
     deferredPrompt := deferredPrompt w; isStandalone := isStandalone w;
     isInstalled := isInstalled w; listening := listening w;
     awaiting := awaiting w; timers := timers w; sw_pending := sw_pending w;
     reloading := b; effects := effects w |}).

Definition emit (e : Effect) : M unit :=
  λ w, ((),
  {| host := host w; localStorage := localStorage w;
     deferredPrompt := deferredPrompt w; isStandalone := isStandalone w;
     isInstalled := isInstalled w; listening := listening w;
     awaiting := awaiting w; timers := timers w; sw_pending := sw_pending w;
     reloading := reloading w; effects := effects w ++ [e] |}).

Definition with_host (h : Host) (w : World) : World :=
  {| host := h; localStorage := localStorage w;
     deferredPrompt := deferredPrompt w; isStandalone := isStandalone w;
     isInstalled := isInstalled w; listening := listening w;
     awaiting := awaiting w; timers := timers w; sw_pending := sw_pending w;
     reloading := reloading w; effects := effects w |}.

Definition alert (msg : string) : M unit := emit (Alert msg).

Definition window_location_reload : M unit := emit Reload ;; setReloading true.

(** ** Helpers (lines 17-28) *)

(** The expression of lines 19-20, over what the host answers. *)
Definition standalone_of (h : Host) : bool :=
  display_mode_standalone h || strict_eq_true (navigator_standalone h).

Definition checkStandalone : M bool :=
  h ← getHost;
  mret (standalone_of h).

Definition checkInstalled : M bool :=
  s ← checkStandalone;
  if s : bool then mret true
  else
    v ← localStorage_getItem PWA_INSTALLED;
    mret (bool_decide (v = Some "true")).

(** ** Install (lines 31-43) *)

(** The callback passed to [userChoice.then]. *)
Definition onUserChoice (choice : UserChoice) : T unit :=
  match outcome choice with
  | accepted =>
      localStorage_setItem PWA_INSTALLED "true" ;;
      lift (setIsInstalled true)
  | dismissed => mret ()
  end ;;
  lift (setDeferredPrompt None).

(** [e.userChoice.then(cb)]: the callback waits for the host to settle the
    promise of [e]. *)
Definition userChoice_then (e : BeforeInstallPromptEvent) : M unit :=
  l ← getAwaiting;
  setAwaiting (l ++ [e]).

Definition installPWA : M unit :=
  p ← getDeferredPrompt;
  match p with
  | None => mret ()
  | Some e =>
      emit (Prompt e) ;;
      userChoice_then e
  end.

(** ** Open (lines 46-54) *)

Definition LAUNCH_URL : string := "web+pwa://launch-pwa".

Definition OPEN_FALLBACK_MSG : string :=
  "If the PWA didn’t open:

• Open the PWA icon from app drawer
• Chrome → Menu → Apps
• Edge → Menu → Apps → Manage apps".

Definition openInstalledPWA : M unit :=
  emit (SetHref LAUNCH_URL) ;;
  emit (SetTimeout 1000) ;;
  n ← getTimers;
  setTimers (S n).

(** The [setTimeout] callback. *)
Definition onTimeout : M unit := alert OPEN_FALLBACK_MSG.

(** ** Uninstall (lines 57-68) *)

Definition UNINSTALL_MSG : string :=
  "To uninstall this PWA:

• Chrome/Edge → Settings → Apps → Manage apps → Uninstall
• Or right-click the app icon → Uninstall".

Definition CLEARED_MSG : string :=
  "Installation status cleared. Refresh the page.".

Definition uninstallPWA : M unit :=
  localStorage_removeItem PWA_INSTALLED ;;
  s ← checkStandalone;
  if s : bool then alert UNINSTALL_MSG
  else
    alert CLEARED_MSG ;;
    window_location_reload.

(** ** Mount effect (lines 71-101) *)

Definition handleBeforeInstall (e : BeforeInstallPromptEvent) : M unit :=
  emit (PreventDefault e) ;;
  setDeferredPrompt (Some e).

Definition handleAppInstalled : T unit :=
  localStorage_setItem PWA_INSTALLED "true" ;;
  lift (setIsInstalled true) ;;
  lift (setDeferredPrompt None).

Definition SERVICE_WORKER_PATH : string := "/service-worker.js".

Definition mountEffect : M unit :=
  s ← checkStandalone;
  setIsStandalone s ;;
  i ← checkInstalled;
  setIsInstalled i ;;
  setListening true ;;
  h ← getHost;
  if has_serviceWorker h then
    emit (RegisterServiceWorker SERVICE_WORKER_PATH) ;;
    setSwPending true
  else mret ().

(** The cleanup returned by the effect. *)
Definition unmountEffect : M unit := setListening false.

(** The [then] and [catch] callbacks of the registration; [err] is the
    rendering of the rejection reason by [console.log]. *)
Definition onRegistered : M unit := emit (ConsoleLog "Service Worker registered").

Definition onRegistrationFailed (err : string) : M unit :=
  emit (ConsoleLog ("SW registration failed: " +:+ err)).

(** ** Render (lines 103-169) *)

(** The three status panels, named after their CSS class. *)
Inductive Panel : Type := panel_pwa | panel_installed | panel_browser.

Inductive Handler : Type := h_installPWA | h_openInstalledPWA | h_uninstallPWA.

#[global] Instance Handler_eq_dec : EqDecision Handler.
Proof. solve_decision. Defined.

Record Button : Type := {
  className : string;
  disabled : bool;
  onClick : Handler;
  caption : string;
}.

(** Children of the container [div], in document order. *)
Inductive Element : Type :=
  | Heading
  | Status (p : Panel)
  | Btn (b : Button)
  | Info.

Definition render (w : World) : list Element :=
  [Heading] ++
  [Status (if isStandalone w then panel_pwa
           else if isInstalled w then panel_installed
           else panel_browser)] ++
  (if negb (isStandalone w) && negb (isInstalled w) then
     [Btn {| className := "install-btn";
             disabled := bool_decide (deferredPrompt w = None);
             onClick := h_installPWA;
             caption := match deferredPrompt w with
                        | Some _ => "📥 Install PWA"
                        | None => "⏳ Waiting for install prompt..."
                        end |}]
   else []) ++
  (if isInstalled w && negb (isStandalone w) then
     [Btn {| className := "install-btn"; disabled := false;
             onClick := h_openInstalledPWA;
             caption := "🚀 Open Installed PWA" |};
      Btn {| className := "uninstall-btn"; disabled := false;
             onClick := h_uninstallPWA;
             caption := "🗑️ Reset Installation Status" |}]
   else []) ++
  (if isStandalone w then
     [Btn {| className := "uninstall-btn"; disabled := false;
             onClick := h_uninstallPWA;
             caption := "🗑️ Uninstall PWA" |}]
   else []) ++
  [Info].

(** The status panels among the rendered children. *)
Definition panels (v : list Element) : list Panel :=
  omap (λ el, match el with Status p => Some p | _ => None end) v.

(** The buttons among the rendered children. *)
Definition buttons (v : list Element) : list Button :=
  omap (λ el, match el with Btn b => Some b | _ => None end) v.

(** A click reaches handler [h] when a rendered button that is not disabled
    carries it. *)
Definition clickable (h : Handler) (w : World) : bool :=
  bool_decide (Exists (λ b, onClick b = h ∧ disabled b = false) (buttons (render w))).

(** ** Page life cycle *)

(** The component before its first effect: the [useState] defaults. *)
Definition fresh (h : Host) (s : gmap string string) (log : list Effect) : World :=
  {| host := h; localStorage := s;
     deferredPrompt := None; isStandalone := false; isInstalled := false;
     listening := false; awaiting := []; timers := 0; sw_pending := false;
     reloading := false; effects := log |}.

(** A page load: first render, then the mount effect. *)
Definition load (h : Host) (s : gmap string string) (log : list Effect) : World :=
  exec mountEffect (fresh h s log).

Definition open_page (h : Host) (s : gmap string string) : World := load h s [].

(** When a handler called [window.location.reload()], the document is
    replaced: storage and host survive, everything else starts over. *)
Definition settle_navigation (w : World) : World :=
  if reloading w then load (host w) (localStorage w) (effects w) else w.

Fixpoint run_callbacks (cbs : list BeforeInstallPromptEvent) (choice : UserChoice) : M unit :=
  match cbs with
  | [] => mret ()
  | _ :: cbs => uncaught (onUserChoice choice) ;; run_callbacks cbs choice
  end.

(** The host settles [e.userChoice]: every callback registered on it runs,
    in registration order, each as a job of its own, so that a callback that
    throws does not keep the next from running. *)
Definition settleUserChoice (e : BeforeInstallPromptEvent) (choice : UserChoice) : M unit :=
  l ← getAwaiting;
  setAwaiting (filter (λ e', e' ≠ e) l) ;;
  run_callbacks (filter (λ e', e' = e) l) choice.

(** What can happen to a loaded page.  [DisplayModeChanged] is the platform
    changing what the display-mode media query and [navigator.standalone]
    answer while the document lives, as when a tab is moved into an
    application window after an install. *)
Inductive Event : Type :=
  | BeforeInstallPrompt (e : BeforeInstallPromptEvent)
  | AppInstalled
  | UserChoiceSettled (e : BeforeInstallPromptEvent) (choice : UserChoice)
  | Click (h : Handler)
  | TimerElapsed
  | RegistrationSettled (err : option string)
  | DisplayModeChanged (h : Host).

Definition handler_body (h : Handler) : M unit :=
  match h with
  | h_installPWA => installPWA
  | h_openInstalledPWA => openInstalledPWA
  | h_uninstallPWA => uninstallPWA
  end.

Definition step (w : World) (ev : Event) : World :=
  match ev with
  | BeforeInstallPrompt e =>
      if listening w then exec (handleBeforeInstall e) w else w
  | AppInstalled =>
      if listening w then exec (uncaught handleAppInstalled) w else w
  | UserChoiceSettled e choice => exec (settleUserChoice e choice) w
  | Click h =>
      if clickable h w then settle_navigation (exec (handler_body h) w) else w
  | TimerElapsed =>
      match timers w with
      | O => w
      | S n => exec (setTimers n ;; onTimeout) w
      end
  | RegistrationSettled err =>
      if sw_pending w then
        exec (setSwPending false ;;
              match err with
              | None => onRegistered
              | Some msg => onRegistrationFailed msg
              end) w
      else w
  | DisplayModeChanged h => with_host h w
  end.

Definition run (w : World) (evs : list Event) : World := foldl step w evs.

(** Pages that some sequence of events produces from some page load. *)
Inductive reachable : World → Prop :=
  | reachable_open h s : reachable (open_page h s)
  | reachable_step w ev : reachable w → reachable (step w ev).

(** The persisted install flag as the code recognises it:
    [localStorage.getItem("pwa_installed") === "true"]. *)
Definition persisted_flag (s : gmap string string) : bool :=
  bool_decide (s !! PWA_INSTALLED = Some "true").


(** The display state section 8 of the specification assigns to a pair
    (standalone, persisted flag); written from the specification, to be
    compared with [render]. *)
Definition spec_display_state (standalone persisted : bool) : Panel :=
  match standalone, persisted with
  | true, _ => panel_pwa
  | false, true => panel_installed
  | false, false => panel_browser
  end.

(** [setItem("pwa_installed", "true")] would return on this page. *)
Definition accepts_flag (w : World) : bool :=
  storage_accepts (host w) (localStorage w) PWA_INSTALLED "true".

(** The page once the flag is written, the installed cell set and the
    handle cleared. *)
Definition marked_installed (w : World) : World :=
  {| host := host w;
     localStorage := <[PWA_INSTALLED := "true"]> (localStorage w);
     deferredPrompt := None;
     isStandalone := isStandalone w;
     isInstalled := true;
     listening := listening w; awaiting := awaiting w; timers := timers w;
     sw_pending := sw_pending w; reloading := reloading w;
     effects := effects w |}.

(** The page after the [then] callback has run once: to its end, or up to
    the exception of [setItem]. *)
Definition after_choice (choice : UserChoice) (w : World) : World :=
  match outcome choice with
  | accepted => if accepts_flag w then marked_installed w else w
  | dismissed => exec (setDeferredPrompt None) w
  end.

(** The callback of [choice] runs to its end on this page. *)
Definition choice_completes (choice : UserChoice) (w : World) : bool :=
  match outcome choice with
  | accepted => accepts_flag w
  | dismissed => true
  end.

(** The size of a store, in characters of keys and values. *)
Definition store_size (s : gmap string string) : nat :=
  map_fold (λ k v n, String.length k + String.length v + n) 0 s.

(** A storage area that holds at most [q] characters. *)
Definition within_quota (q : nat) (s : gmap string string) (k v : string) : bool :=
  bool_decide (store_size (<[k := v]> s) ≤ q).

(** A storage area without a limit that the page could reach. *)
Definition unbounded (s : gmap string string) (k v : string) : bool := true.

(** Example hosts and handles for the closed instances below. *)
Definition browser_tab : Host :=
  {| display_mode_standalone := false;
     navigator_standalone := JsUndefined;
     has_serviceWorker := true;
     storage_accepts := unbounded |}.

(** A browser tab whose storage area holds 16 characters, and a store that
    fills it but for one. *)
Definition cramped_tab : Host :=
  {| display_mode_standalone := false;
     navigator_standalone := JsUndefined;
     has_serviceWorker := true;
     storage_accepts := within_quota 16 |}.

Definition nearly_full : gmap string string := {["cache" := "0123456789"]}.

Definition app_window : Host :=
  {| display_mode_standalone := true;
     navigator_standalone := JsUndefined;
     has_serviceWorker := true;
     storage_accepts := unbounded |}.

Definition ios_home_screen : Host :=
  {| display_mode_standalone := false;
     navigator_standalone := JsBool true;
     has_serviceWorker := false;
     storage_accepts := unbounded |}.

Definition prompt1 : BeforeInstallPromptEvent := {| event_id := 1 |}.

(** A page opened in a browser tab that holds the handle [prompt1]. *)
Definition holding_prompt1 : World :=
  step (open_page browser_tab ∅) (BeforeInstallPrompt prompt1).

(** That page once install was triggered: the prompt is open. *)
Definition prompted_prompt1 : World := exec installPWA holding_prompt1.

(** A page that holds [prompt1] in the tab whose storage area is nearly
    full. *)
Definition cramped_holding_prompt1 : World :=
  step (open_page cramped_tab nearly_full) (BeforeInstallPrompt prompt1).

(** C3 as the specification words it: once the choice has settled the
    handle is cleared, with the flag set and the page installed on accepted
    and the flag as before on dismissed. *)
Definition choice_always_applied (w : World) (e : BeforeInstallPromptEvent)
    (choice : UserChoice) : Prop :=
  let w2 := step (exec installPWA w) (UserChoiceSettled e choice) in
  deferredPrompt w2 = None
  ∧ match outcome choice with
    | accepted =>
        localStorage w2 !! PWA_INSTALLED = Some "true" ∧ isInstalled w2 = true
    | dismissed =>
        localStorage w2 !! PWA_INSTALLED = localStorage w !! PWA_INSTALLED
    end.

(** C4 as the specification words it: the installed notification always
    leaves the flag set, the page installed and no handle held. *)
Definition notification_always_persists (w : World) : Prop :=
  let w' := step w AppInstalled in
  localStorage w' !! PWA_INSTALLED = Some "true"
  ∧ isInstalled w' = true
  ∧ deferredPrompt w' = None.

(** C5 as the specification words it: what the display branch shows follows
    the platform's current display-mode predicate. *)
Definition display_follows_host (w : World) : Prop :=
  panels (render w) = [panel_pwa] ↔ standalone_of (host w) = true.

(** A page installed from a browser tab and then moved by the platform into
    an application window. *)
Definition moved_to_app_window : World :=
  run (open_page browser_tab ∅)
      [BeforeInstallPrompt prompt1; Click h_installPWA;
       UserChoiceSettled prompt1 {| outcome := accepted; platform := "web" |};
       AppInstalled; DisplayModeChanged app_window].

(** A store this page alone has written to holds the key with the sentinel
    or not at all; there the recognised flag is the presence of the key. *)
Definition sentinel_or_absent (s : gmap string string) : Prop :=
  s !! PWA_INSTALLED = None ∨ s !! PWA_INSTALLED = Some "true".

(** The two host notifications the mount effect subscribes to. *)
Definition is_notification (ev : Event) : bool :=
  match ev with
  | BeforeInstallPrompt _ | AppInstalled => true
  | _ => false
  end.

Definition prompt2 : BeforeInstallPromptEvent := {| event_id := 2 |}.

(** * Properties *)

(** Unfolds the monadic plumbing down to record expressions. *)
Ltac run_M :=
  cbv [exec eval mbind mret M_bind M_ret T_bind T_ret lift uncaught
       getHost getDeferredPrompt getAwaiting getTimers localStorage_getItem
       localStorage_setItem localStorage_removeItem with_localStorage
       setDeferredPrompt setIsStandalone setIsInstalled setListening
       setAwaiting setTimers setSwPending setReloading emit alert
       window_location_reload checkStandalone checkInstalled
       onUserChoice userChoice_then installPWA openInstalledPWA onTimeout
       uninstallPWA handleBeforeInstall handleAppInstalled mountEffect
       unmountEffect onRegistered onRegistrationFailed];
  cbn [fst snd host localStorage deferredPrompt isStandalone isInstalled
       listening awaiting timers sw_pending reloading effects].

(** ** The helpers *)

Lemma checkStandalone_run (w : World) :
  checkStandalone w = (standalone_of (host w), w).
Proof. reflexivity. Qed.

Lemma checkInstalled_run (w : World) :
  checkInstalled w =
  (standalone_of (host w) || persisted_flag (localStorage w), w).
Proof.
  run_M. unfold persisted_flag. by destruct (standalone_of (host w)).
Qed.

Lemma persisted_flag_true (s : gmap string string) :
  persisted_flag s = true ↔ s !! PWA_INSTALLED = Some "true".
Proof. unfold persisted_flag. by rewrite bool_decide_eq_true. Qed.

Lemma persisted_flag_insert (s : gmap string string) :
  persisted_flag (<[PWA_INSTALLED := "true"]> s) = true.
Proof. apply persisted_flag_true, lookup_insert_eq. Qed.

Lemma persisted_flag_delete (s : gmap string string) :
  persisted_flag (delete PWA_INSTALLED s) = false.
Proof.
  unfold persisted_flag. apply bool_decide_eq_false.
  by rewrite lookup_delete_eq.
Qed.

(** ** Page load *)

(** The page a load produces, field by field. *)
Lemma load_unfold (h : Host) (s : gmap string string) (log : list Effect) :
  load h s log =
  {| host := h; localStorage := s;
     deferredPrompt := None;
     isStandalone := standalone_of h;
     isInstalled := standalone_of h || persisted_flag s;
     listening := true; awaiting := []; timers := 0;
     sw_pending := has_serviceWorker h;
     reloading := false;
     effects := log ++ (if has_serviceWorker h
                        then [RegisterServiceWorker SERVICE_WORKER_PATH]
                        else []) |}.
Proof.
  unfold load, fresh, persisted_flag. run_M.
  destruct (standalone_of h); simpl;
    destruct (has_serviceWorker h); simpl; by rewrite ?app_nil_r.
Qed.

Lemma load_isStandalone h s log : isStandalone (load h s log) = standalone_of h.
Proof. by rewrite load_unfold. Qed.

Lemma load_isInstalled h s log :
  isInstalled (load h s log) = standalone_of h || persisted_flag s.
Proof. by rewrite load_unfold. Qed.

Lemma load_deferredPrompt h s log : deferredPrompt (load h s log) = None.
Proof. by rewrite load_unfold. Qed.

Lemma load_localStorage h s log : localStorage (load h s log) = s.
Proof. by rewrite load_unfold. Qed.

Lemma load_host h s log : host (load h s log) = h.
Proof. by rewrite load_unfold. Qed.

Lemma load_listening h s log : listening (load h s log) = true.
Proof. by rewrite load_unfold. Qed.

Lemma load_reloading h s log : reloading (load h s log) = false.
Proof. by rewrite load_unfold. Qed.

Example ios_home_screen_is_standalone :
  standalone_of ios_home_screen = true
  ∧ panels (render (open_page ios_home_screen ∅)) = [panel_pwa]
  ∧ effects (open_page ios_home_screen ∅) = [].
Proof. by vm_compute. Qed.

Example navigator_standalone_must_be_true :
  strict_eq_true (JsString "true") = false
  ∧ strict_eq_true (JsNumber 1) = false
  ∧ strict_eq_true JsUndefined = false.
Proof. done. Qed.

(** ** Render *)

Lemma panels_render (w : World) :
  panels (render w) =
  [if isStandalone w then panel_pwa
   else if isInstalled w then panel_installed else panel_browser].
Proof. unfold render. by destruct (isStandalone w), (isInstalled w). Qed.

Lemma panels_render_spec (w : World) :
  panels (render w) = [spec_display_state (isStandalone w) (isInstalled w)].
Proof. rewrite panels_render. by destruct (isStandalone w), (isInstalled w). Qed.

Lemma buttons_render (w : World) :
  buttons (render w) =
  if isStandalone w then
    [{| className := "uninstall-btn"; disabled := false;
        onClick := h_uninstallPWA; caption := "🗑️ Uninstall PWA" |}]
  else if isInstalled w then
    [{| className := "install-btn"; disabled := false;
        onClick := h_openInstalledPWA; caption := "🚀 Open Installed PWA" |};
     {| className := "uninstall-btn"; disabled := false;
        onClick := h_uninstallPWA;
        caption := "🗑️ Reset Installation Status" |}]
  else
    [{| className := "install-btn";
        disabled := bool_decide (deferredPrompt w = None);
        onClick := h_installPWA;
        caption := match deferredPrompt w with
                   | Some _ => "📥 Install PWA"
                   | None => "⏳ Waiting for install prompt..."
                   end |}].
Proof. unfold render. by destruct (isStandalone w), (isInstalled w). Qed.

(** The view is a function of the three state cells. *)
Lemma render_ext (w w' : World) :
  deferredPrompt w' = deferredPrompt w →
  isStandalone w' = isStandalone w →
  isInstalled w' = isInstalled w →
  render w' = render w.
Proof. unfold render. by intros -> -> ->. Qed.

(** C1: after a page load the view shows exactly one status panel, the one
    the pair (standalone predicate, persisted flag) selects: the standalone
    panel when standalone holds, whatever the flag; the installed-browser
    panel when standalone fails and the flag is recognised; the not-installed
    panel when both fail.  In every page, loaded or not, exactly one panel is
    among the rendered children. *)
Theorem initial_load_display_state (h : Host) (s : gmap string string) :
  panels (render (open_page h s)) =
    [spec_display_state (standalone_of h) (persisted_flag s)]
  ∧ ∀ w : World, ∃ p : Panel, panels (render w) = [p].
Proof.
  split.
  - rewrite panels_render_spec. unfold open_page.
    rewrite load_isStandalone, load_isInstalled.
    by destruct (standalone_of h), (persisted_flag s).
  - intros w. eexists. apply panels_render.
Qed.

(** C6: the installed flag computed at initialization is true exactly when
    the standalone predicate holds or the stored value of the install key is
    the sentinel. *)
Theorem installed_flag_at_init (h : Host) (s : gmap string string) :
  (isInstalled (open_page h s) = true ↔
     standalone_of h = true ∨ s !! PWA_INSTALLED = Some "true")
  ∧ eval checkInstalled (fresh h s []) =
      standalone_of h || bool_decide (s !! PWA_INSTALLED = Some "true").
Proof.
  split.
  - unfold open_page. rewrite load_isInstalled, orb_true_iff.
    by rewrite persisted_flag_true.
  - unfold eval. by rewrite checkInstalled_run.
Qed.

(** ** Reset *)

(** Both branches of [uninstallPWA], as one record. *)
Lemma uninstallPWA_unfold (w : World) :
  exec uninstallPWA w =
  {| host := host w;
     localStorage := delete PWA_INSTALLED (localStorage w);
     deferredPrompt := deferredPrompt w;
     isStandalone := isStandalone w;
     isInstalled := isInstalled w;
     listening := listening w; awaiting := awaiting w; timers := timers w;
     sw_pending := sw_pending w;
     reloading := if standalone_of (host w) then reloading w else true;
     effects := effects w ++
                (if standalone_of (host w) then [Alert UNINSTALL_MSG]
                 else [Alert CLEARED_MSG; Reload]) |}.
Proof.
  run_M. destruct (standalone_of (host w)); simpl; [done|].
  by rewrite <- app_assoc.
Qed.

(** C2: the reset operation removes the persisted flag in every page.  When
    the standalone predicate holds at the time of the call, the only host
    call is the alert with the uninstall instructions and no reload is
    requested; when it does not hold, the page alerts and then reloads. *)
Theorem reset_removes_flag (w : World) :
  let w' := exec uninstallPWA w in
  localStorage w' = delete PWA_INSTALLED (localStorage w)
  ∧ localStorage w' !! PWA_INSTALLED = None
  ∧ persisted_flag (localStorage w') = false
  ∧ if standalone_of (host w)
    then effects w' = effects w ++ [Alert UNINSTALL_MSG]
         ∧ reloading w' = reloading w
    else effects w' = effects w ++ [Alert CLEARED_MSG; Reload]
         ∧ reloading w' = true
         ∧ settle_navigation w' =
             load (host w) (delete PWA_INSTALLED (localStorage w))
                  (effects w ++ [Alert CLEARED_MSG; Reload]).
Proof.
  intros w'. subst w'. rewrite uninstallPWA_unfold. cbn.
  split_and!; [done|apply lookup_delete_eq|apply persisted_flag_delete|].
  destruct (standalone_of (host w)); [done|].
  split_and!; try done.
Qed.

(** C10: while the standalone predicate holds, the reset operation changes
    the storage key and raises one alert, and nothing else: the three state
    cells and the rendered view are those of before, no reload is requested,
    and the click on the uninstall button leaves the page in place. *)
Theorem reset_frame_when_standalone (w : World) :
  standalone_of (host w) = true →
  reloading w = false →
  let w' := exec uninstallPWA w in
  isStandalone w' = isStandalone w
  ∧ isInstalled w' = isInstalled w
  ∧ deferredPrompt w' = deferredPrompt w
  ∧ render w' = render w
  ∧ host w' = host w
  ∧ localStorage w' = delete PWA_INSTALLED (localStorage w)
  ∧ effects w' = effects w ++ [Alert UNINSTALL_MSG]
  ∧ reloading w' = false
  ∧ settle_navigation w' = w'
  ∧ (listening w', awaiting w', timers w', sw_pending w') =
    (listening w, awaiting w, timers w, sw_pending w).
Proof.
  intros Hs Hr w'. subst w'. rewrite uninstallPWA_unfold.
  unfold settle_navigation. cbn. rewrite Hs, Hr. split_and!; done.
Qed.

Lemma reset_frame_when_standalone_witness :
  standalone_of (host (open_page app_window {[PWA_INSTALLED := "true"]})) = true
  ∧ render (exec uninstallPWA (open_page app_window {[PWA_INSTALLED := "true"]}))
    = render (open_page app_window {[PWA_INSTALLED := "true"]}).
Proof.
  split; [reflexivity|].
  apply (reset_frame_when_standalone
           (open_page app_window {[PWA_INSTALLED := "true"]}));
    reflexivity.
Defined.

(** ** Install *)

Lemma installPWA_none (w : World) :
  deferredPrompt w = None → installPWA w = ((), w).
Proof. intros Hp. run_M. by rewrite Hp. Qed.

Lemma installPWA_some (w : World) (e : BeforeInstallPromptEvent) :
  deferredPrompt w = Some e →
  exec installPWA w =
  {| host := host w; localStorage := localStorage w;
     deferredPrompt := Some e;
     isStandalone := isStandalone w; isInstalled := isInstalled w;
     listening := listening w;
     awaiting := awaiting w ++ [e];
     timers := timers w; sw_pending := sw_pending w;
     reloading := reloading w;
     effects := effects w ++ [Prompt e] |}.
Proof. intros Hp. run_M. rewrite Hp. cbn. by rewrite Hp. Qed.

Lemma clickable_install (w : World) :
  clickable h_installPWA w =
  negb (isStandalone w) && negb (isInstalled w)
  && bool_decide (deferredPrompt w ≠ None).
Proof.
  unfold clickable. rewrite buttons_render.
  destruct (isStandalone w), (isInstalled w), (deferredPrompt w); by vm_compute.
Qed.

(** C7: with no capability handle held, triggering install returns at once:
    the page (storage, state cells, pending callbacks) is the one before, no
    prompt or other host call is made, and a click on the install button
    does not get through either, the button being disabled. *)
Theorem install_without_handle_is_noop (w : World) :
  deferredPrompt w = None →
  exec installPWA w = w
  ∧ localStorage (exec installPWA w) = localStorage w
  ∧ isInstalled (exec installPWA w) = isInstalled w
  ∧ deferredPrompt (exec installPWA w) = None
  ∧ effects (exec installPWA w) = effects w
  ∧ step w (Click h_installPWA) = w.
Proof.
  intros Hp. unfold exec. rewrite (installPWA_none w Hp). cbn.
  split_and!; try done.
  rewrite clickable_install, Hp.
  rewrite bool_decide_eq_false_2 by (intros Hne; by apply Hne).
  by rewrite andb_false_r.
Qed.

Lemma install_without_handle_is_noop_witness :
  deferredPrompt (open_page browser_tab ∅) = None
  ∧ exec installPWA (open_page browser_tab ∅) = open_page browser_tab ∅.
Proof.
  split; [reflexivity|].
  apply (install_without_handle_is_noop (open_page browser_tab ∅)).
  reflexivity.
Defined.

(** ** The user's choice *)

Lemma exec_seq {A B} (m : M A) (k : M B) (w : World) :
  exec (m ;; k) w = exec k (exec m w).
Proof. unfold exec, mbind, M_bind. by destruct (m w). Qed.

Lemma onUserChoice_unfold (choice : UserChoice) (w : World) :
  exec (uncaught (onUserChoice choice)) w = after_choice choice w.
Proof.
  unfold after_choice, accepts_flag, marked_installed. run_M.
  destruct (outcome choice); [|done].
  by destruct (storage_accepts _ _ _ _).
Qed.

Lemma after_choice_idemp (choice : UserChoice) (w : World) :
  after_choice choice (after_choice choice w) = after_choice choice w.
Proof.
  unfold after_choice. destruct (outcome choice); [|done].
  destruct (accepts_flag w) eqn:Ha; [|by rewrite Ha].
  destruct (accepts_flag (marked_installed w)); [|done].
  unfold marked_installed. cbn. by rewrite insert_insert_eq.
Qed.

(** Several callbacks registered on one promise act as one. *)
Lemma run_callbacks_unfold (cbs : list BeforeInstallPromptEvent)
    (choice : UserChoice) (w : World) :
  exec (run_callbacks cbs choice) w =
  match cbs with
  | [] => w
  | _ :: _ => after_choice choice w
  end.
Proof.
  revert w. induction cbs as [|e cbs IH]; intros w; [done|].
  cbn [run_callbacks]. rewrite exec_seq, onUserChoice_unfold, IH.
  destruct cbs; [done|apply after_choice_idemp].
Qed.

Lemma settleUserChoice_unfold (e : BeforeInstallPromptEvent)
    (choice : UserChoice) (w : World) :
  exec (settleUserChoice e choice) w =
  exec (run_callbacks (filter (λ e', e' = e) (awaiting w)) choice)
       (exec (setAwaiting (filter (λ e', e' ≠ e) (awaiting w))) w).
Proof. reflexivity. Qed.

(** Settling a promise some callback waits for. *)
Lemma settleUserChoice_awaited (e : BeforeInstallPromptEvent)
    (choice : UserChoice) (w : World) :
  e ∈ awaiting w →
  exec (settleUserChoice e choice) w =
  after_choice choice
    (exec (setAwaiting (filter (λ e', e' ≠ e) (awaiting w))) w).
Proof.
  intros Hin. rewrite settleUserChoice_unfold, run_callbacks_unfold.
  destruct (filter _ (awaiting w)) as [|e' l] eqn:Hf; [|done].
  exfalso. apply (filter_nil_not_elem_of _ _ e Hf); done.
Qed.

(** Triggering install with [e] held, then the settlement of the choice. *)
Lemma install_then_settle (w : World) (e : BeforeInstallPromptEvent)
    (choice : UserChoice) :
  deferredPrompt w = Some e →
  step (exec installPWA w) (UserChoiceSettled e choice) =
  after_choice choice
    {| host := host w; localStorage := localStorage w;
       deferredPrompt := Some e;
       isStandalone := isStandalone w; isInstalled := isInstalled w;
       listening := listening w;
       awaiting := filter (λ e', e' ≠ e) (awaiting w ++ [e]);
       timers := timers w; sw_pending := sw_pending w;
       reloading := reloading w;
       effects := effects w ++ [Prompt e] |}.
Proof.
  intros Hp. cbn [step]. rewrite settleUserChoice_awaited.
  - by rewrite (installPWA_some w e Hp).
  - rewrite (installPWA_some w e Hp). cbn.
    apply elem_of_app. right. by apply list_elem_of_singleton.
Qed.

Lemma cramped_holding_prompt1_facts :
  deferredPrompt cramped_holding_prompt1 = Some prompt1
  ∧ listening cramped_holding_prompt1 = true
  ∧ accepts_flag cramped_holding_prompt1 = false
  ∧ deferredPrompt
      (step (exec installPWA cramped_holding_prompt1)
            (UserChoiceSettled prompt1
               {| outcome := accepted; platform := "web" |})) = Some prompt1
  ∧ localStorage
      (step (exec installPWA cramped_holding_prompt1)
            (UserChoiceSettled prompt1
               {| outcome := accepted; platform := "web" |}))
      !! PWA_INSTALLED = None
  ∧ deferredPrompt (step cramped_holding_prompt1 AppInstalled) = Some prompt1
  ∧ isInstalled (step cramped_holding_prompt1 AppInstalled) = false
  ∧ localStorage (step cramped_holding_prompt1 AppInstalled) !! PWA_INSTALLED
    = None.
Proof. by vm_compute. Qed.

(** C3, refuted: on a store that has no room for the flag, the accepted
    choice leaves the handle held: [setItem] throws before the callback
    reaches the two setters. *)
Lemma choice_always_applied_counterexample :
  ¬ (∀ (w : World) (e : BeforeInstallPromptEvent) (choice : UserChoice),
       reachable w → deferredPrompt w = Some e →
       choice_always_applied w e choice).
Proof.
  intros Hall.
  destruct cramped_holding_prompt1_facts as (Hp & _ & _ & Hd & _).
  assert (Hr : reachable cramped_holding_prompt1).
  { apply reachable_step, reachable_open. }
  destruct (Hall _ prompt1 {| outcome := accepted; platform := "web" |} Hr Hp)
    as [Hnone _].
  rewrite Hd in Hnone. discriminate.
Qed.

(** C3, amended: with handle [e] held, triggering install calls the prompt
    of [e].  When the choice settles as dismissed, the handle is cleared and
    storage and the installed flag are what they were, so an absent flag
    stays absent.  When it settles as accepted and the store accepts the
    write, the install key holds the sentinel, the installed flag is true
    and the handle is cleared; when the store does not accept the write,
    storage and the installed flag are unchanged and the handle stays
    held. *)
Theorem install_after_choice (w : World) (e : BeforeInstallPromptEvent)
    (choice : UserChoice) :
  deferredPrompt w = Some e →
  let w1 := exec installPWA w in
  let w2 := step w1 (UserChoiceSettled e choice) in
  effects w1 = effects w ++ [Prompt e]
  ∧ match outcome choice with
    | accepted =>
        if storage_accepts (host w) (localStorage w) PWA_INSTALLED "true"
        then deferredPrompt w2 = None
             ∧ localStorage w2 = <[PWA_INSTALLED := "true"]> (localStorage w)
             ∧ localStorage w2 !! PWA_INSTALLED = Some "true"
             ∧ isInstalled w2 = true
        else deferredPrompt w2 = Some e
             ∧ localStorage w2 = localStorage w
             ∧ isInstalled w2 = isInstalled w
    | dismissed =>
        deferredPrompt w2 = None
        ∧ localStorage w2 = localStorage w
        ∧ localStorage w2 !! PWA_INSTALLED = localStorage w !! PWA_INSTALLED
        ∧ isInstalled w2 = isInstalled w
    end.
Proof.
  intros Hp w1 w2. subst w2 w1. rewrite (install_then_settle w e choice Hp).
  split; [by rewrite (installPWA_some w e Hp)|].
  unfold after_choice, accepts_flag. cbn.
  destruct (outcome choice); [|done].
  destruct (storage_accepts _ _ _ _); cbn; split_and!; try done.
  apply lookup_insert_eq.
Qed.

Lemma install_after_choice_witness :
  deferredPrompt holding_prompt1 = Some prompt1
  ∧ effects (exec installPWA holding_prompt1) =
      effects holding_prompt1 ++ [Prompt prompt1].
Proof.
  split; [by vm_compute|].
  pose proof (install_after_choice holding_prompt1 prompt1
                {| outcome := dismissed; platform := "web" |}
                ltac:(by vm_compute)) as [He _].
  exact He.
Defined.

(** ** The installed notification *)

Lemma handleAppInstalled_unfold (w : World) :
  exec (uncaught handleAppInstalled) w =
  if accepts_flag w then marked_installed w else w.
Proof.
  unfold accepts_flag, marked_installed. run_M.
  by destruct (storage_accepts _ _ _ _).
Qed.

(** C4, refuted: on a store that has no room for the flag the installed
    notification changes nothing. *)
Lemma notification_always_persists_counterexample :
  ¬ (∀ w : World, reachable w → notification_always_persists w).
Proof.
  intros Hall.
  destruct cramped_holding_prompt1_facts as (_ & _ & _ & _ & _ & Hd & _).
  assert (Hr : reachable cramped_holding_prompt1).
  { apply reachable_step, reachable_open. }
  destruct (Hall _ Hr) as (_ & _ & Hnone).
  rewrite Hd in Hnone. discriminate.
Qed.

(** C4, amended: whatever the page held before (handle or none, flag or
    none), once the listener of the mount effect receives the installed
    notification and the store accepts the write, the install key holds the
    sentinel, the installed flag is true and no handle is held; when the
    store does not accept the write, the page is left as it was. *)
Theorem app_installed_sets_flag (w : World) :
  listening w = true →
  let w' := step w AppInstalled in
  if storage_accepts (host w) (localStorage w) PWA_INSTALLED "true"
  then localStorage w' !! PWA_INSTALLED = Some "true"
       ∧ persisted_flag (localStorage w') = true
       ∧ isInstalled w' = true
       ∧ deferredPrompt w' = None
       ∧ w' = marked_installed w
  else w' = w.
Proof.
  intros Hl w'. subst w'. cbn [step]. rewrite Hl, handleAppInstalled_unfold.
  unfold accepts_flag. destruct (storage_accepts _ _ _ _); [|done].
  cbn. split_and!; try done.
  - apply lookup_insert_eq.
  - apply persisted_flag_insert.
Qed.

Lemma app_installed_sets_flag_witness :
  listening holding_prompt1 = true
  ∧ deferredPrompt (step holding_prompt1 AppInstalled) = None.
Proof.
  split; [by vm_compute|].
  pose proof (app_installed_sets_flag holding_prompt1 ltac:(by vm_compute))
    as Hc.
  cbn zeta in Hc.
  assert (Ha : storage_accepts (host holding_prompt1)
                 (localStorage holding_prompt1) PWA_INSTALLED "true" = true)
    by (by vm_compute).
  rewrite Ha in Hc. destruct Hc as (_ & _ & _ & Hd & _).
  exact Hd.
Defined.

(** ** What a step may touch *)

Lemma openInstalledPWA_unfold (w : World) :
  exec openInstalledPWA w =
  {| host := host w; localStorage := localStorage w;
     deferredPrompt := deferredPrompt w;
     isStandalone := isStandalone w; isInstalled := isInstalled w;
     listening := listening w; awaiting := awaiting w;
     timers := S (timers w);
     sw_pending := sw_pending w; reloading := reloading w;
     effects := effects w ++ [SetHref LAUNCH_URL; SetTimeout 1000] |}.
Proof. run_M. by rewrite <- app_assoc. Qed.

(** A handler leaves the host and the standalone cell alone, and does to
    storage one of three things. *)
Lemma handler_body_frame (h : Handler) (w : World) :
  host (exec (handler_body h) w) = host w
  ∧ isStandalone (exec (handler_body h) w) = isStandalone w
  ∧ (localStorage (exec (handler_body h) w) = localStorage w
     ∨ localStorage (exec (handler_body h) w) =
         delete PWA_INSTALLED (localStorage w)).
Proof.
  destruct h; cbn [handler_body].
  - destruct (deferredPrompt w) as [e|] eqn:Hp.
    + rewrite (installPWA_some w e Hp). cbn. auto.
    + unfold exec. rewrite (installPWA_none w Hp). cbn. auto.
  - rewrite openInstalledPWA_unfold. cbn. auto.
  - rewrite uninstallPWA_unfold. cbn. auto.
Qed.

Lemma settle_navigation_cases (w : World) :
  settle_navigation w = w
  ∨ settle_navigation w = load (host w) (localStorage w) (effects w).
Proof. unfold settle_navigation. destruct (reloading w); auto. Qed.

Lemma settle_navigation_localStorage (w : World) :
  localStorage (settle_navigation w) = localStorage w.
Proof.
  destruct (settle_navigation_cases w) as [-> | ->]; [done|].
  apply load_localStorage.
Qed.

(** The ways the two writers of the flag can end. *)
Lemma after_choice_cases (choice : UserChoice) (w : World) :
  after_choice choice w = w
  ∨ after_choice choice w = marked_installed w
  ∨ after_choice choice w = exec (setDeferredPrompt None) w.
Proof.
  unfold after_choice. destruct (outcome choice); [|auto].
  destruct (accepts_flag w); auto.
Qed.

Lemma handleAppInstalled_cases (w : World) :
  exec (uncaught handleAppInstalled) w = w
  ∨ exec (uncaught handleAppInstalled) w = marked_installed w.
Proof. rewrite handleAppInstalled_unfold. destruct (accepts_flag w); auto. Qed.

(** Every step leaves storage as it is, or writes the sentinel under the
    install key, or removes the install key. *)
Lemma step_localStorage (w : World) (ev : Event) :
  localStorage (step w ev) = localStorage w
  ∨ localStorage (step w ev) = <[PWA_INSTALLED := "true"]> (localStorage w)
  ∨ localStorage (step w ev) = delete PWA_INSTALLED (localStorage w).
Proof.
  destruct ev as [e| |e choice|h| |err|h']; cbn [step].
  - destruct (listening w); auto.
  - destruct (listening w); [|auto].
    destruct (handleAppInstalled_cases w) as [-> | ->]; auto.
  - rewrite settleUserChoice_unfold, run_callbacks_unfold.
    destruct (filter _ (awaiting w)); [by left|].
    destruct (after_choice_cases choice
                (exec (setAwaiting (filter (λ e', e' ≠ e) (awaiting w))) w))
      as [-> | [-> | ->]]; auto.
  - destruct (clickable h w); [|by left].
    rewrite settle_navigation_localStorage.
    destruct (handler_body_frame h w) as (_ & _ & [-> | ->]); auto.
  - destruct (timers w); auto.
  - destruct (sw_pending w); [|by left]. destruct err; auto.
  - auto.
Qed.

(** The standalone cell is only ever written by a page load. *)
Lemma step_isStandalone (w : World) (ev : Event) :
  isStandalone (step w ev) = isStandalone w
  ∨ ∃ s log, step w ev = load (host w) s log.
Proof.
  destruct ev as [e| |e choice|h| |err|h']; cbn [step].
  - destruct (listening w); auto.
  - destruct (listening w); [|auto].
    destruct (handleAppInstalled_cases w) as [-> | ->]; auto.
  - rewrite settleUserChoice_unfold, run_callbacks_unfold.
    destruct (filter _ (awaiting w)); [auto|].
    destruct (after_choice_cases choice
                (exec (setAwaiting (filter (λ e', e' ≠ e) (awaiting w))) w))
      as [-> | [-> | ->]]; auto.
  - destruct (clickable h w); [|by left].
    destruct (handler_body_frame h w) as (Hh & Hs & _).
    destruct (settle_navigation_cases (exec (handler_body h) w)) as [-> | ->].
    + by left.
    + right. rewrite Hh. eauto.
  - destruct (timers w); auto.
  - destruct (sw_pending w); [|by left]. destruct err; auto.
  - auto.
Qed.

Lemma reachable_run (w : World) (evs : list Event) :
  reachable w → reachable (run w evs).
Proof.
  revert w. induction evs as [|ev evs IH]; intros w Hw; [done|].
  apply IH. by constructor.
Qed.

(** Loaded pages keep their listeners and have no reload outstanding. *)
Lemma reachable_listening (w : World) :
  reachable w → listening w = true ∧ reloading w = false.
Proof.
  induction 1 as [h s|w ev _ [IHl IHr]].
  - unfold open_page. by rewrite load_unfold.
  - destruct ev as [e| |e choice|h| |err|h']; cbn [step].
    + by rewrite IHl.
    + rewrite IHl. by destruct (handleAppInstalled_cases w) as [-> | ->].
    + rewrite settleUserChoice_unfold, run_callbacks_unfold.
      destruct (filter _ (awaiting w)); [done|].
      by destruct (after_choice_cases choice
                     (exec (setAwaiting (filter (λ e', e' ≠ e) (awaiting w))) w))
        as [-> | [-> | ->]].
    + destruct (clickable h w); [|done].
      unfold settle_navigation.
      destruct (reloading (exec (handler_body h) w)) eqn:Hr.
      * by rewrite load_unfold.
      * split; [|done]. clear Hr. destruct h; cbn [handler_body].
        -- destruct (deferredPrompt w) as [e|] eqn:Hp.
           ++ by rewrite (installPWA_some w e Hp).
           ++ unfold exec. by rewrite (installPWA_none w Hp).
        -- by rewrite openInstalledPWA_unfold.
        -- by rewrite uninstallPWA_unfold.
    + by destruct (timers w).
    + destruct (sw_pending w); [|done]. by destruct err.
    + done.
Qed.

(** ** The install scenario *)

Lemma persisted_flag_absent (s : gmap string string) :
  s !! PWA_INSTALLED = None → persisted_flag s = false.
Proof. intros Hs. unfold persisted_flag. by rewrite Hs. Qed.

Lemma persisted_flag_other (s : gmap string string) (v : string) :
  s !! PWA_INSTALLED = Some v → v ≠ "true" → persisted_flag s = false.
Proof.
  intros Hs Hv. unfold persisted_flag. rewrite Hs.
  apply bool_decide_eq_false. congruence.
Qed.

(** C8: in a page opened outside standalone mode on a store without the
    install key, the not-installed panel is shown and the only button is the
    install button, disabled.  The availability notification enables that
    button.  Clicking it calls the prompt, and when the choice settles as
    accepted, on a store that accepts the write, the install key holds
    "true" and the installed-browser panel is shown. *)
Theorem fresh_install_scenario (h : Host) (s : gmap string string)
    (e : BeforeInstallPromptEvent) (pf : string) :
  standalone_of h = false →
  s !! PWA_INSTALLED = None →
  storage_accepts h s PWA_INSTALLED "true" = true →
  let w0 := open_page h s in
  let w1 := step w0 (BeforeInstallPrompt e) in
  let w2 := step w1 (Click h_installPWA) in
  let w3 := step w2 (UserChoiceSettled e {| outcome := accepted; platform := pf |}) in
  panels (render w0) = [panel_browser]
  ∧ buttons (render w0) =
      [{| className := "install-btn"; disabled := true;
          onClick := h_installPWA;
          caption := "⏳ Waiting for install prompt..." |}]
  ∧ panels (render w1) = [panel_browser]
  ∧ buttons (render w1) =
      [{| className := "install-btn"; disabled := false;
          onClick := h_installPWA; caption := "📥 Install PWA" |}]
  ∧ effects w2 = effects w1 ++ [Prompt e]
  ∧ localStorage w3 !! PWA_INSTALLED = Some "true"
  ∧ panels (render w3) = [panel_installed].
Proof.
  intros Hs Hk Ha w0 w1 w2 w3.
  assert (Hw1 : w1 = exec (handleBeforeInstall e) w0).
  { subst w1 w0. cbn [step]. unfold open_page. by rewrite load_listening. }
  assert (Hst : isStandalone w1 = false ∧ isInstalled w1 = false
                ∧ deferredPrompt w1 = Some e ∧ reloading w1 = false
                ∧ host w1 = h ∧ localStorage w1 = s).
  { rewrite Hw1. subst w0. unfold open_page. rewrite load_unfold. cbn.
    by rewrite Hs, (persisted_flag_absent s Hk). }
  destruct Hst as (Hst1 & Hin1 & Hp1 & Hr1 & Hh1 & Hs1).
  assert (Hw2 : w2 = exec installPWA w1).
  { subst w2. cbn [step]. rewrite clickable_install, Hst1, Hin1, Hp1.
    cbn [negb andb handler_body]. rewrite bool_decide_eq_true_2 by done.
    unfold settle_navigation. by rewrite (installPWA_some w1 e Hp1), Hr1. }
  assert (Hw3 : w3 = marked_installed
                  (exec (setAwaiting (filter (λ e', e' ≠ e) (awaiting w2))) w2)).
  { subst w3. clearbody w2 w1. cbn [step]. rewrite settleUserChoice_awaited.
    - rewrite Hw2, (installPWA_some w1 e Hp1).
      unfold after_choice, accepts_flag. cbn. by rewrite Hh1, Hs1, Ha.
    - rewrite Hw2, (installPWA_some w1 e Hp1). cbn.
      apply elem_of_app. right. by apply list_elem_of_singleton. }
  assert (Hst2 : isStandalone w2 = false).
  { by rewrite Hw2, (installPWA_some w1 e Hp1). }
  clearbody w3 w2 w1. split_and!.
  - subst w0. unfold open_page. rewrite panels_render, load_unfold. cbn.
    by rewrite Hs, (persisted_flag_absent s Hk).
  - subst w0. unfold open_page. rewrite buttons_render, load_unfold. cbn.
    by rewrite Hs, (persisted_flag_absent s Hk).
  - by rewrite panels_render, Hst1, Hin1.
  - rewrite buttons_render, Hst1, Hin1, Hp1.
    by rewrite bool_decide_eq_false_2.
  - by rewrite Hw2, (installPWA_some w1 e Hp1).
  - rewrite Hw3. cbn. apply lookup_insert_eq.
  - rewrite panels_render, Hw3. cbn. by rewrite Hst2.
Qed.

Lemma fresh_install_scenario_witness :
  standalone_of browser_tab = false
  ∧ (∅ : gmap string string) !! PWA_INSTALLED = None
  ∧ storage_accepts browser_tab ∅ PWA_INSTALLED "true" = true
  ∧ panels (render
      (step (step (step (open_page browser_tab ∅)
                        (BeforeInstallPrompt prompt1))
                  (Click h_installPWA))
            (UserChoiceSettled prompt1
               {| outcome := accepted; platform := "web" |})))
    = [panel_installed].
Proof.
  split; [reflexivity|]. split; [reflexivity|]. split; [reflexivity|].
  pose proof (fresh_install_scenario browser_tab ∅ prompt1 "web"
                eq_refl eq_refl eq_refl) as (_ & _ & _ & _ & _ & _ & Hp).
  exact Hp.
Defined.

(** ** The sentinel *)

(** C9: only the exact string "true" under the key "pwa_installed" counts as
    the install flag.  With any other stored value and outside standalone
    mode, the installed flag computed at load is false and the not-installed
    panel is shown; and whatever the page and the event, a step leaves
    storage alone, or writes "true" under that key, or removes that key. *)
Theorem flag_recognised_only_as_true (h : Host) (s : gmap string string)
    (v : string) :
  standalone_of h = false →
  s !! PWA_INSTALLED = Some v →
  v ≠ "true" →
  eval checkInstalled (fresh h s []) = false
  ∧ isInstalled (open_page h s) = false
  ∧ panels (render (open_page h s)) = [panel_browser]
  ∧ PWA_INSTALLED = "pwa_installed"
  ∧ ∀ (w : World) (ev : Event),
      localStorage (step w ev) = localStorage w
      ∨ localStorage (step w ev) = <["pwa_installed" := "true"]> (localStorage w)
      ∨ localStorage (step w ev) = delete "pwa_installed" (localStorage w).
Proof.
  intros Hs Hk Hv.
  pose proof (persisted_flag_other s v Hk Hv) as Hf.
  split_and!.
  - unfold eval. rewrite checkInstalled_run. cbn. by rewrite Hs, Hf.
  - unfold open_page. by rewrite load_isInstalled, Hs, Hf.
  - unfold open_page.
    by rewrite panels_render, load_isStandalone, load_isInstalled, Hs, Hf.
  - done.
  - apply step_localStorage.
Qed.

Lemma flag_recognised_only_as_true_witness :
  standalone_of browser_tab = false
  ∧ ({[PWA_INSTALLED := "yes"]} : gmap string string) !! PWA_INSTALLED = Some "yes"
  ∧ isInstalled (open_page browser_tab {[PWA_INSTALLED := "yes"]}) = false.
Proof.
  split; [reflexivity|]. split; [reflexivity|].
  pose proof (flag_recognised_only_as_true browser_tab
                {[PWA_INSTALLED := "yes"]} "yes" eq_refl eq_refl) as Hc.
  apply Hc. discriminate.
Defined.

Lemma persisted_flag_is_presence (s : gmap string string) :
  sentinel_or_absent s →
  persisted_flag s = true ↔ is_Some (s !! PWA_INSTALLED).
Proof.
  rewrite persisted_flag_true. intros [Hs | Hs]; rewrite Hs.
  - split; [done|]. by intros [? ?].
  - split; [eauto|done].
Qed.

Lemma step_sentinel_or_absent (w : World) (ev : Event) :
  sentinel_or_absent (localStorage w) →
  sentinel_or_absent (localStorage (step w ev)).
Proof.
  unfold sentinel_or_absent. intros Hs.
  destruct (step_localStorage w ev) as [-> | [-> | ->]]; [done| |].
  - right. apply lookup_insert_eq.
  - left. apply lookup_delete_eq.
Qed.

Lemma run_sentinel_or_absent (w : World) (evs : list Event) :
  sentinel_or_absent (localStorage w) →
  sentinel_or_absent (localStorage (run w evs)).
Proof.
  revert w. induction evs as [|ev evs IH]; intros w Hs; [done|].
  apply IH. by apply step_sentinel_or_absent.
Qed.

(** ** The standalone flag *)

Lemma moved_to_app_window_facts :
  standalone_of (host moved_to_app_window) = true
  ∧ isStandalone moved_to_app_window = false
  ∧ panels (render moved_to_app_window) = [panel_installed]
  ∧ effects (step moved_to_app_window (Click h_uninstallPWA)) =
      effects moved_to_app_window ++ [Alert UNINSTALL_MSG].
Proof. by vm_compute. Qed.

(** C5, refuted: in a reachable page the display branch shows the
    installed-browser panel while the platform's predicate holds; the view
    reads the value stored at mount. *)
Lemma display_follows_host_counterexample :
  ¬ (∀ w : World, reachable w → display_follows_host w).
Proof.
  intros Hall.
  assert (Hr : reachable moved_to_app_window).
  { apply reachable_run, reachable_open. }
  destruct (Hall _ Hr) as [_ Hback].
  destruct moved_to_app_window_facts as (Hs & _ & Hp & _).
  specialize (Hback Hs). rewrite Hp in Hback. discriminate.
Qed.

(** C5, amended: the standalone predicate is recomputed from the host at
    every call of [checkStandalone], without touching the page; a page load
    stores its value in the state cell [isStandalone]; the display branch
    reads that cell; the reset branch reads the host at the time of the
    call; and no step other than a page load writes the cell. *)
Theorem standalone_stored_at_mount :
  (∀ w : World, checkStandalone w = (standalone_of (host w), w))
  ∧ (∀ h s, isStandalone (open_page h s) = standalone_of h)
  ∧ (∀ w : World, panels (render w) = [panel_pwa] ↔ isStandalone w = true)
  ∧ (∀ w : World,
       effects (exec uninstallPWA w) =
       effects w ++ (if standalone_of (host w) then [Alert UNINSTALL_MSG]
                     else [Alert CLEARED_MSG; Reload]))
  ∧ (∀ (w : World) (ev : Event),
       isStandalone (step w ev) = isStandalone w
       ∨ ∃ s log, step w ev = load (host w) s log).
Proof.
  split_and!.
  - apply checkStandalone_run.
  - intros h s. apply load_isStandalone.
  - intros w. rewrite panels_render.
    destruct (isStandalone w), (isInstalled w); split; congruence.
  - intros w. by rewrite uninstallPWA_unfold.
  - apply step_isStandalone.
Qed.

(** * Further properties of the component *)

(** ** The view *)

(** X1: the buttons go with the panel.  Every page renders one of three
    combinations: the standalone panel with the uninstall button alone; the
    installed panel with the open and reset buttons; the not-installed panel
    with the install button alone.  The install button is the only one that
    can be disabled, and it is exactly when no handle is held. *)
Theorem buttons_follow_panel (w : World) :
  (panels (render w), onClick <$> buttons (render w)) ∈
    [([panel_pwa], [h_uninstallPWA]);
     ([panel_installed], [h_openInstalledPWA; h_uninstallPWA]);
     ([panel_browser], [h_installPWA])]
  ∧ Forall (λ b, disabled b =
                 bool_decide (onClick b = h_installPWA ∧ deferredPrompt w = None))
           (buttons (render w)).
Proof.
  rewrite panels_render, buttons_render.
  destruct (isStandalone w), (isInstalled w); cbn.
  - split; [set_solver|]. repeat constructor.
  - split; [set_solver|]. repeat constructor.
  - split; [set_solver|]. repeat constructor.
  - split; [set_solver|]. repeat constructor. cbn.
    destruct (deferredPrompt w).
    + rewrite !bool_decide_eq_false_2; [done|by intros [_ ?]|done].
    + by rewrite !bool_decide_eq_true_2.
Qed.

(** ** Invariants of loaded pages *)

Lemma handleBeforeInstall_unfold (e : BeforeInstallPromptEvent) (w : World) :
  exec (handleBeforeInstall e) w =
  {| host := host w; localStorage := localStorage w;
     deferredPrompt := Some e;
     isStandalone := isStandalone w; isInstalled := isInstalled w;
     listening := listening w; awaiting := awaiting w; timers := timers w;
     sw_pending := sw_pending w; reloading := reloading w;
     effects := effects w ++ [PreventDefault e] |}.
Proof. reflexivity. Qed.

Lemma run_reachable (h : Host) (s : gmap string string) (evs : list Event) :
  reachable (run (open_page h s) evs).
Proof. apply reachable_run, reachable_open. Qed.

Lemma load_installed (h : Host) (s : gmap string string) (log : list Effect) :
  isInstalled (load h s log) = true
  ∨ (isStandalone (load h s log) = false
     ∧ persisted_flag (localStorage (load h s log)) = false).
Proof.
  rewrite load_unfold. cbn.
  destruct (standalone_of h), (persisted_flag s); auto.
Qed.

(** The page counts as installed, or it is neither standalone nor flagged. *)
Lemma reachable_installed (w : World) :
  reachable w →
  isInstalled w = true
  ∨ (isStandalone w = false ∧ persisted_flag (localStorage w) = false).
Proof.
  induction 1 as [h s|w ev _ IH].
  - apply load_installed.
  - destruct ev as [e| |e choice|h| |err|h']; cbn [step].
    + by destruct (listening w).
    + destruct (listening w); [|done].
      destruct (handleAppInstalled_cases w) as [-> | ->]; [done|by left].
    + rewrite settleUserChoice_unfold, run_callbacks_unfold.
      destruct (filter _ (awaiting w)); [done|].
      destruct (after_choice_cases choice
                  (exec (setAwaiting (filter (λ e', e' ≠ e) (awaiting w))) w))
        as [-> | [-> | ->]]; [done|by left|done].
    + destruct (clickable h w); [|done].
      assert (Hb : isInstalled (exec (handler_body h) w) = true
                 ∨ (isStandalone (exec (handler_body h) w) = false
                    ∧ persisted_flag (localStorage (exec (handler_body h) w)) = false)).
      { destruct h; cbn [handler_body].
        - destruct (deferredPrompt w) as [e|] eqn:Hp.
          + by rewrite (installPWA_some w e Hp).
          + unfold exec. by rewrite (installPWA_none w Hp).
        - by rewrite openInstalledPWA_unfold.
        - rewrite uninstallPWA_unfold. cbn. rewrite persisted_flag_delete.
          destruct IH as [IH|[IH _]]; auto. }
      destruct (settle_navigation_cases (exec (handler_body h) w)) as [-> | ->];
        [done|apply load_installed].
    + by destruct (timers w).
    + destruct (sw_pending w); [|done]. by destruct err.
    + done.
Qed.

(** X2: whatever the host, the store and the events since the page was
    opened, the installed cell is true whenever the standalone cell is true
    or the store holds the flag: the page either counts as installed, or it
    is neither standalone nor flagged, and the not-installed panel is never
    shown over a store that holds the flag. *)
Theorem installed_covers_standalone_and_flag (h : Host)
    (s : gmap string string) (evs : list Event) :
  let w := run (open_page h s) evs in
  (isInstalled w = true
   ∨ (isStandalone w = false ∧ persisted_flag (localStorage w) = false))
  ∧ (panels (render w) ≠ [panel_browser]
     ∨ localStorage w !! PWA_INSTALLED ≠ Some "true").
Proof.
  intros w. pose proof (reachable_installed w (run_reachable h s evs)) as Hi.
  split; [done|]. rewrite panels_render.
  destruct Hi as [-> | [-> Hf]].
  - left. by destruct (isStandalone w).
  - right. intros Hk. apply persisted_flag_true in Hk. congruence.
Qed.

(** ** Storage *)

(** X3: no sequence of events touches a storage key other than the install
    key. *)
Theorem other_keys_untouched (w : World) (evs : list Event) (k : string) :
  k ≠ PWA_INSTALLED →
  localStorage (run w evs) !! k = localStorage w !! k.
Proof.
  intros Hk. revert w. induction evs as [|ev evs IH]; intros w; [done|].
  cbn [run foldl]. fold (run (step w ev) evs). rewrite IH.
  destruct (step_localStorage w ev) as [-> | [-> | ->]]; [done| |].
  - by rewrite lookup_insert_ne.
  - by rewrite lookup_delete_ne.
Qed.

Lemma other_keys_untouched_witness :
  "theme" ≠ PWA_INSTALLED
  ∧ localStorage
      (run (open_page browser_tab {["theme" := "dark"]})
           [BeforeInstallPrompt prompt1; Click h_installPWA;
            UserChoiceSettled prompt1
              {| outcome := accepted; platform := "web" |};
            Click h_uninstallPWA]) !! "theme" = Some "dark".
Proof.
  split; [discriminate|].
  rewrite (other_keys_untouched
             (open_page browser_tab {["theme" := "dark"]}) _ "theme");
    [reflexivity|discriminate].
Defined.

(** ** The log of host calls *)

(** Membership in a literal list, one element at a time. *)
Ltac elem_cases H :=
  repeat (apply elem_of_cons in H as [H|H];
          [try discriminate H; try (injection H as ->)|]);
  try (by apply elem_of_nil in H).

(** What a handler adds to the log; it prompts only the handle it holds and
    leaves the held handle in place. *)
Lemma handler_body_effects (h : Handler) (w : World) :
  ∃ new : list Effect,
    effects (exec (handler_body h) w) = effects w ++ new
    ∧ (∀ e, Prompt e ∈ new → deferredPrompt w = Some e)
    ∧ deferredPrompt (exec (handler_body h) w) = deferredPrompt w.
Proof.
  destruct h; cbn [handler_body].
  - destruct (deferredPrompt w) as [e|] eqn:Hp.
    + exists [Prompt e]. rewrite (installPWA_some w e Hp). cbn.
      split_and!; [done| |done]. intros e' Hin. by elem_cases Hin.
    + exists []. unfold exec. rewrite (installPWA_none w Hp). cbn.
      rewrite app_nil_r. split_and!; [done| |done].
      intros e' Hin. elem_cases Hin.
  - eexists. rewrite openInstalledPWA_unfold. cbn.
    split_and!; [done| |done]. intros e' Hin. elem_cases Hin.
  - eexists. rewrite uninstallPWA_unfold. cbn.
    split_and!; [done| |done]. intros e' Hin.
    destruct (standalone_of (host w)); elem_cases Hin.
Qed.

(** The log only grows, and each step accounts for the prompts it adds and
    for the handle it leaves. *)
Lemma step_effects (w : World) (ev : Event) :
  ∃ new : list Effect,
    effects (step w ev) = effects w ++ new
    ∧ (∀ e, Prompt e ∈ new → deferredPrompt w = Some e)
    ∧ (∀ e, deferredPrompt (step w ev) = Some e →
            deferredPrompt w = Some e ∨ PreventDefault e ∈ new).
Proof.
  assert (Hnil : ∀ w' : World,
             effects w' = effects w →
             (∀ e, deferredPrompt w' = Some e → deferredPrompt w = Some e) →
             ∃ new : list Effect,
               effects w' = effects w ++ new
               ∧ (∀ e, Prompt e ∈ new → deferredPrompt w = Some e)
               ∧ (∀ e, deferredPrompt w' = Some e →
                       deferredPrompt w = Some e ∨ PreventDefault e ∈ new)).
  { intros w' He Hd. exists []. rewrite app_nil_r.
    split_and!; [done| |auto]. intros e Hin. elem_cases Hin. }
  destruct ev as [e| |e choice|h| |err|h']; cbn [step].
  - destruct (listening w); [|by apply Hnil].
    exists [PreventDefault e]. rewrite handleBeforeInstall_unfold. cbn.
    split_and!; [done| |].
    + intros e' Hin. elem_cases Hin.
    + intros e' [= <-]. right. apply list_elem_of_singleton. done.
  - destruct (listening w); [|by apply Hnil].
    destruct (handleAppInstalled_cases w) as [-> | ->]; by apply Hnil.
  - rewrite settleUserChoice_unfold, run_callbacks_unfold.
    destruct (filter _ (awaiting w)); [by apply Hnil|].
    destruct (after_choice_cases choice
                (exec (setAwaiting (filter (λ e', e' ≠ e) (awaiting w))) w))
      as [-> | [-> | ->]]; by apply Hnil.
  - destruct (clickable h w); [|by apply Hnil].
    destruct (handler_body_effects h w) as (new & He & Hp & Hd).
    destruct (settle_navigation_cases (exec (handler_body h) w)) as [-> | ->].
    + exists new. rewrite Hd. auto.
    + rewrite load_unfold. cbn. rewrite He, <- app_assoc. eexists.
      split_and!; [done| |done].
      intros e [Hin|Hin]%elem_of_app; [by apply Hp|].
      destruct (has_serviceWorker _); elem_cases Hin.
  - destruct (timers w); [by apply Hnil|].
    eexists. cbn. split_and!; [done| |auto]. intros e Hin. elem_cases Hin.
  - destruct (sw_pending w); [|by apply Hnil].
    destruct err; eexists; cbn;
      (split_and!; [done| |auto]); intros e Hin; elem_cases Hin.
  - by apply Hnil.
Qed.

Lemma reachable_prompts (w : World) :
  reachable w →
  (∀ i e, effects w !! i = Some (Prompt e) →
          ∃ j, j < i ∧ effects w !! j = Some (PreventDefault e))
  ∧ (∀ e, deferredPrompt w = Some e →
          ∃ j, effects w !! j = Some (PreventDefault e)).
Proof.
  induction 1 as [h s|w ev _ [IH1 IH2]].
  - unfold open_page. rewrite load_unfold. cbn. split; [|done].
    intros i e. destruct (has_serviceWorker h); by destruct i as [|[|i]].
  - destruct (step_effects w ev) as (new & -> & Hp & Hd). split.
    + intros i e [Hi | [Hlen Hi]]%lookup_app_Some.
      * destruct (IH1 i e Hi) as (j & Hj & Hl). exists j. split; [done|].
        by apply lookup_app_l_Some.
      * destruct (IH2 e (Hp e (list_elem_of_lookup_2 _ _ _ Hi))) as (j & Hl).
        exists j. split; [|by apply lookup_app_l_Some].
        apply lookup_lt_Some in Hl. lia.
    + intros e [He | (k & Hk)%list_elem_of_lookup_1]%Hd.
      * destruct (IH2 e He) as (j & Hl). exists j. by apply lookup_app_l_Some.
      * exists (length (effects w) + k). by rewrite lookup_app_r, Nat.add_sub' by lia.
Qed.

(** X4: the component prompts no event it has not first called
    [preventDefault] on: in the log of any page, every call of [prompt] on an
    event comes after a call of [preventDefault] on that same event. *)
Theorem prompt_follows_preventDefault (h : Host) (s : gmap string string)
    (evs : list Event) (i : nat) (e : BeforeInstallPromptEvent) :
  effects (run (open_page h s) evs) !! i = Some (Prompt e) →
  ∃ j, j < i ∧ effects (run (open_page h s) evs) !! j = Some (PreventDefault e).
Proof.
  destruct (reachable_prompts _ (run_reachable h s evs)) as [H1 _]. apply H1.
Qed.

Lemma prompt_follows_preventDefault_witness :
  effects (run (open_page browser_tab ∅)
               [BeforeInstallPrompt prompt1; Click h_installPWA]) !! 2
    = Some (Prompt prompt1)
  ∧ ∃ j, j < 2
      ∧ effects (run (open_page browser_tab ∅)
                     [BeforeInstallPrompt prompt1; Click h_installPWA]) !! j
        = Some (PreventDefault prompt1).
Proof.
  split; [reflexivity|].
  apply (prompt_follows_preventDefault browser_tab ∅
           [BeforeInstallPrompt prompt1; Click h_installPWA] 2 prompt1).
  reflexivity.
Defined.

(** ** Teardown *)

Lemma step_not_listening (w : World) (ev : Event) :
  is_notification ev = true → listening w = false → step w ev = w.
Proof. intros Hev Hl. destruct ev; try discriminate Hev; cbn [step]; by rewrite Hl. Qed.

(** X5: once the cleanup of the mount effect has run, neither notification
    reaches a handler: any sequence of availability and installed
    notifications leaves the page, its storage and its log as they were. *)
Theorem teardown_ignores_notifications (w : World) (evs : list Event) :
  forallb is_notification evs = true →
  run (exec unmountEffect w) evs = exec unmountEffect w
  ∧ localStorage (run (exec unmountEffect w) evs) = localStorage w
  ∧ effects (run (exec unmountEffect w) evs) = effects w.
Proof.
  intros Hn.
  assert (Hrun : run (exec unmountEffect w) evs = exec unmountEffect w).
  { induction evs as [|ev evs IH]; [done|].
    cbn in Hn. apply andb_true_iff in Hn as [Hev Hn].
    cbn [run foldl]. rewrite (step_not_listening (exec unmountEffect w) ev Hev eq_refl).
    by apply IH. }
  by rewrite Hrun.
Qed.

Lemma teardown_ignores_notifications_witness :
  forallb is_notification [BeforeInstallPrompt prompt1; AppInstalled] = true
  ∧ localStorage
      (run (exec unmountEffect (open_page browser_tab ∅))
           [BeforeInstallPrompt prompt1; AppInstalled]) = ∅.
Proof.
  split; [reflexivity|].
  pose proof (teardown_ignores_notifications (open_page browser_tab ∅)
                [BeforeInstallPrompt prompt1; AppInstalled] eq_refl)
    as (_ & Hs & _).
  exact Hs.
Defined.

(** ** Opening the installed application *)

Lemma clickable_open (w : World) :
  clickable h_openInstalledPWA w = isInstalled w && negb (isStandalone w).
Proof.
  unfold clickable. rewrite buttons_render.
  destruct (isStandalone w), (isInstalled w), (deferredPrompt w); by vm_compute.
Qed.

Lemma clickable_uninstall (w : World) :
  clickable h_uninstallPWA w = isInstalled w || isStandalone w.
Proof.
  unfold clickable. rewrite buttons_render.
  destruct (isStandalone w), (isInstalled w), (deferredPrompt w); by vm_compute.
Qed.

(** X6: on a page that shows the open button, a click navigates to the
    custom scheme and arms one timer of 1000 ms; when that timer elapses the
    fallback alert is raised whether or not the navigation did anything.
    Storage, the held handle and the view are those of before the click. *)
Theorem open_then_fallback (w : World) :
  isInstalled w = true →
  isStandalone w = false →
  reloading w = false →
  let w1 := step w (Click h_openInstalledPWA) in
  let w2 := step w1 TimerElapsed in
  effects w1 = effects w ++ [SetHref "web+pwa://launch-pwa"; SetTimeout 1000]
  ∧ timers w1 = S (timers w)
  ∧ effects w2 = effects w ++ [SetHref "web+pwa://launch-pwa"; SetTimeout 1000;
                               Alert OPEN_FALLBACK_MSG]
  ∧ timers w2 = timers w
  ∧ localStorage w2 = localStorage w
  ∧ deferredPrompt w2 = deferredPrompt w
  ∧ render w2 = render w.
Proof.
  intros Hi Hs Hr w1 w2.
  assert (Hw1 : w1 = exec openInstalledPWA w).
  { subst w1. cbn [step]. rewrite clickable_open, Hi, Hs. cbn [negb andb].
    unfold settle_navigation. cbn [handler_body].
    by rewrite openInstalledPWA_unfold, Hr. }
  subst w2. rewrite Hw1, openInstalledPWA_unfold. cbn. run_M.
  rewrite <- app_assoc. split_and!; done.
Qed.

Lemma open_then_fallback_witness :
  isInstalled (open_page browser_tab {[PWA_INSTALLED := "true"]}) = true
  ∧ effects (run (open_page browser_tab {[PWA_INSTALLED := "true"]})
                 [Click h_openInstalledPWA; TimerElapsed])
    = [RegisterServiceWorker "/service-worker.js";
       SetHref "web+pwa://launch-pwa"; SetTimeout 1000;
       Alert OPEN_FALLBACK_MSG].
Proof.
  split; [reflexivity|].
  pose proof (open_then_fallback
                (open_page browser_tab {[PWA_INSTALLED := "true"]})
                eq_refl eq_refl eq_refl) as (_ & _ & He & _).
  exact He.
Defined.

(** ** Service worker registration *)

(** X7: a page load never writes to storage and makes one host call at most:
    the registration of "/service-worker.js", made exactly when the
    navigator has the service worker API.  When the registration settles,
    with success or with an error, one line is logged and nothing else
    changes: storage and view are the same, and a second settlement is
    ignored. *)
Theorem service_worker_registration (h : Host) (s : gmap string string)
    (err err' : option string) :
  let w := open_page h s in
  let w1 := step w (RegistrationSettled err) in
  localStorage w = s
  ∧ effects w =
      (if has_serviceWorker h
       then [RegisterServiceWorker "/service-worker.js"] else [])
  ∧ effects w1 =
      effects w ++
      (if has_serviceWorker h
       then [ConsoleLog match err with
                        | None => "Service Worker registered"
                        | Some msg => "SW registration failed: " +:+ msg
                        end]
       else [])
  ∧ localStorage w1 = s
  ∧ render w1 = render w
  ∧ listening w1 = true
  ∧ step w1 (RegistrationSettled err') = w1.
Proof.
  intros w w1. subst w1 w. unfold open_page. rewrite load_unfold. cbn.
  destruct (has_serviceWorker h); cbn; [|by rewrite ?app_nil_r].
  destruct err; cbn; split_and!; done.
Qed.

(** ** The installed notification and the user's choice *)

Lemma handleAppInstalled_frame (w : World) :
  awaiting (exec (uncaught handleAppInstalled) w) = awaiting w
  ∧ listening (exec (uncaught handleAppInstalled) w) = listening w.
Proof. by destruct (handleAppInstalled_cases w) as [-> | ->]. Qed.

Lemma listening_after_choice (choice : UserChoice) (w : World) :
  listening (after_choice choice w) = listening w.
Proof. by destruct (after_choice_cases choice w) as [-> | [-> | ->]]. Qed.

Lemma listening_setAwaiting (l : list BeforeInstallPromptEvent) (w : World) :
  listening (exec (setAwaiting l) w) = listening w.
Proof. reflexivity. Qed.

Lemma handleAppInstalled_setAwaiting (l : list BeforeInstallPromptEvent)
    (w : World) :
  exec (uncaught handleAppInstalled) (exec (setAwaiting l) w) =
  exec (setAwaiting l) (exec (uncaught handleAppInstalled) w).
Proof.
  rewrite !handleAppInstalled_unfold. unfold accepts_flag. cbn.
  by destruct (storage_accepts _ _ _ _).
Qed.

(** The installed handler and the callback of a choice write the same key
    and value, and each clears the handle when it reaches its end. *)
Lemma handleAppInstalled_after_choice (choice : UserChoice) (w : World) :
  exec (uncaught handleAppInstalled) (after_choice choice w) =
  after_choice choice (exec (uncaught handleAppInstalled) w).
Proof.
  rewrite !handleAppInstalled_unfold. unfold after_choice.
  destruct (outcome choice).
  - destruct (accepts_flag w) eqn:Ha; [|by rewrite Ha].
    by destruct (accepts_flag (marked_installed w)).
  - unfold accepts_flag. cbn. by destruct (storage_accepts _ _ _ _).
Qed.

(** X8: the installed notification and the settlement of a user's choice
    commute, whatever the choice and whether or not a callback waits for it;
    and a repeated installed notification changes nothing more. *)
Theorem app_installed_commutes_with_choice (w : World)
    (e : BeforeInstallPromptEvent) (choice : UserChoice) :
  step (step w (UserChoiceSettled e choice)) AppInstalled =
  step (step w AppInstalled) (UserChoiceSettled e choice)
  ∧ step (step w AppInstalled) AppInstalled = step w AppInstalled.
Proof.
  cbn [step]. split.
  - rewrite !settleUserChoice_unfold, !run_callbacks_unfold.
    destruct (listening w) eqn:Hl.
    + rewrite (proj1 (handleAppInstalled_frame w)).
      destruct (filter _ (awaiting w));
        rewrite ?listening_after_choice, listening_setAwaiting, Hl.
      * by rewrite handleAppInstalled_setAwaiting.
      * by rewrite handleAppInstalled_after_choice,
             handleAppInstalled_setAwaiting.
    + by destruct (filter _ (awaiting w));
        rewrite ?listening_after_choice, listening_setAwaiting, Hl.
  - destruct (listening w) eqn:Hl; [|by rewrite Hl].
    rewrite (proj2 (handleAppInstalled_frame w)), Hl.
    rewrite !handleAppInstalled_unfold.
    destruct (accepts_flag w) eqn:Ha; [|by rewrite Ha].
    destruct (accepts_flag (marked_installed w)); [|done].
    unfold marked_installed. cbn. by rewrite insert_insert_eq.
Qed.

(** X9: the cleanup of the mount effect does not cancel a pending choice:
    when a prompt was answered with accepted after teardown, the callback
    still runs, and on a store that accepts the write it writes the sentinel
    under the install key. *)
Theorem choice_after_teardown_still_persists (w : World)
    (e : BeforeInstallPromptEvent) (pf : string) :
  e ∈ awaiting w →
  storage_accepts (host w) (localStorage w) PWA_INSTALLED "true" = true →
  let w' := step (exec unmountEffect w)
                 (UserChoiceSettled e {| outcome := accepted; platform := pf |}) in
  localStorage w' = <[PWA_INSTALLED := "true"]> (localStorage w)
  ∧ localStorage w' !! PWA_INSTALLED = Some "true"
  ∧ listening w' = false.
Proof.
  intros Hin Ha w'. subst w'. cbn [step].
  rewrite settleUserChoice_awaited by done.
  unfold after_choice, accepts_flag. cbn. rewrite Ha. cbn.
  split_and!; [done|apply lookup_insert_eq|done].
Qed.

Lemma choice_after_teardown_still_persists_witness :
  prompt1 ∈ awaiting prompted_prompt1
  ∧ storage_accepts (host prompted_prompt1) (localStorage prompted_prompt1)
      PWA_INSTALLED "true" = true
  ∧ localStorage
      (step (exec unmountEffect prompted_prompt1)
            (UserChoiceSettled prompt1
               {| outcome := accepted; platform := "web" |}))
      !! PWA_INSTALLED = Some "true".
Proof.
  assert (Hin : prompt1 ∈ awaiting prompted_prompt1).
  { vm_compute. apply list_elem_of_singleton. reflexivity. }
  assert (Ha : storage_accepts (host prompted_prompt1)
                 (localStorage prompted_prompt1) PWA_INSTALLED "true" = true)
    by (by vm_compute).
  split; [exact Hin|]. split; [exact Ha|].
  pose proof (choice_after_teardown_still_persists prompted_prompt1 prompt1
                "web" Hin Ha) as (_ & Hk & _).
  exact Hk.
Defined.

(** ** Repeated clicks on the install button *)

Lemma click_install_enabled (w : World) (e : BeforeInstallPromptEvent) :
  isStandalone w = false →
  isInstalled w = false →
  deferredPrompt w = Some e →
  reloading w = false →
  step w (Click h_installPWA) = exec installPWA w.
Proof.
  intros Hs Hi Hp Hr. cbn [step]. rewrite clickable_install, Hs, Hi, Hp.
  cbn [negb andb handler_body]. rewrite bool_decide_eq_true_2 by done.
  unfold settle_navigation. by rewrite (installPWA_some w e Hp), Hr.
Qed.

(** The handle stays held while the choice is pending, so every further
    click prompts again and registers one more callback. *)
Lemma run_install_clicks (n : nat) (w : World) (e : BeforeInstallPromptEvent) :
  isStandalone w = false →
  isInstalled w = false →
  deferredPrompt w = Some e →
  reloading w = false →
  run w (replicate n (Click h_installPWA)) =
  {| host := host w; localStorage := localStorage w;
     deferredPrompt := Some e;
     isStandalone := false; isInstalled := false;
     listening := listening w;
     awaiting := awaiting w ++ replicate n e;
     timers := timers w; sw_pending := sw_pending w;
     reloading := false;
     effects := effects w ++ replicate n (Prompt e) |}.
Proof.
  revert w. induction n as [|n IH]; intros w Hs Hi Hp Hr.
  - destruct w. cbn in *. subst. by rewrite !app_nil_r.
  - cbn [replicate run foldl]. fold (run (step w (Click h_installPWA))
                                          (replicate n (Click h_installPWA))).
    rewrite (click_install_enabled w e Hs Hi Hp Hr), (installPWA_some w e Hp).
    rewrite IH by done. cbn. by rewrite <- !app_assoc.
Qed.

(** X10: the install button stays enabled until the choice settles.  Each of
    [S n] clicks calls [prompt] on the same held event; when the choice then
    settles and its callback runs to its end (the choice is dismissed, or
    the store accepts the write), the outcome is applied as after one click:
    the handle is cleared, storage and the installed cell follow the
    outcome, and no callback for that event is left pending. *)
Theorem repeated_install_clicks (w : World) (e : BeforeInstallPromptEvent)
    (choice : UserChoice) (n : nat) :
  isStandalone w = false →
  isInstalled w = false →
  deferredPrompt w = Some e →
  reloading w = false →
  choice_completes choice w = true →
  let wn := run w (replicate (S n) (Click h_installPWA)) in
  let w' := step wn (UserChoiceSettled e choice) in
  effects wn = effects w ++ replicate (S n) (Prompt e)
  ∧ deferredPrompt wn = Some e
  ∧ effects w' = effects wn
  ∧ deferredPrompt w' = None
  ∧ localStorage w' =
      match outcome choice with
      | accepted => <[PWA_INSTALLED := "true"]> (localStorage w)
      | dismissed => localStorage w
      end
  ∧ isInstalled w' =
      match outcome choice with accepted => true | dismissed => false end
  ∧ e ∉ awaiting w'.
Proof.
  intros Hs Hi Hp Hr Hc wn w'. subst w' wn.
  rewrite (run_install_clicks (S n) w e Hs Hi Hp Hr). cbn [step].
  rewrite settleUserChoice_awaited
    by (cbn; apply elem_of_app; right; apply elem_of_cons; by left).
  unfold after_choice, choice_completes, accepts_flag in *. cbn.
  destruct (outcome choice); [rewrite Hc|]; cbn; split_and!; try done;
    intros [Hne _]%list_elem_of_filter; by apply Hne.
Qed.

Lemma repeated_install_clicks_witness :
  deferredPrompt holding_prompt1 = Some prompt1
  ∧ choice_completes {| outcome := accepted; platform := "web" |}
      holding_prompt1 = true
  ∧ effects (run holding_prompt1 (replicate 2 (Click h_installPWA)))
    = effects holding_prompt1 ++ replicate 2 (Prompt prompt1).
Proof.
  split; [by vm_compute|]. split; [by vm_compute|].
  pose proof (repeated_install_clicks holding_prompt1 prompt1
                {| outcome := accepted; platform := "web" |} 1
                ltac:(by vm_compute) ltac:(by vm_compute)
                ltac:(by vm_compute) ltac:(by vm_compute)
                ltac:(by vm_compute)) as (He & _).
  exact He.
Defined.

(** ** A choice that settles late *)

(** X11: the callback of a user's choice clears whatever handle is held,
    not only the one it was registered for.  When a second availability
    notification arrives while the first prompt is open, the second event is
    held, and the settlement of the first choice, when its callback runs to
    its end (the choice is dismissed, or the store accepts the write), then
    drops it unprompted: installing is a no-op until the host notifies
    again. *)
Theorem late_choice_drops_newer_handle (w : World)
    (e1 e2 : BeforeInstallPromptEvent) (choice : UserChoice) :
  deferredPrompt w = Some e1 →
  listening w = true →
  choice_completes choice w = true →
  let w1 := exec installPWA w in
  let w2 := step w1 (BeforeInstallPrompt e2) in
  let w3 := step w2 (UserChoiceSettled e1 choice) in
  deferredPrompt w2 = Some e2
  ∧ deferredPrompt w3 = None
  ∧ effects w3 = effects w ++ [Prompt e1; PreventDefault e2]
  ∧ exec installPWA w3 = w3.
Proof.
  intros Hp Hl Hc w1 w2 w3.
  assert (Hw2 : w2 = exec (handleBeforeInstall e2) w1).
  { subst w2 w1. cbn [step]. by rewrite (installPWA_some w e1 Hp), Hl. }
  assert (Hw3 : deferredPrompt w3 = None
              ∧ effects w3 = effects w ++ [Prompt e1; PreventDefault e2]).
  { subst w3. cbn [step]. rewrite settleUserChoice_awaited.
    - rewrite Hw2. subst w1.
      rewrite (installPWA_some w e1 Hp), handleBeforeInstall_unfold.
      unfold after_choice, choice_completes, accepts_flag in *. cbn.
      destruct (outcome choice); [rewrite Hc|]; cbn;
        by rewrite <- app_assoc.
    - rewrite Hw2. subst w1.
      rewrite (installPWA_some w e1 Hp), handleBeforeInstall_unfold. cbn.
      apply elem_of_app. right. apply list_elem_of_singleton. done. }
  destruct Hw3 as [Hd3 He3]. split_and!; try done.
  - by rewrite Hw2.
  - unfold exec. by rewrite (installPWA_none w3 Hd3).
Qed.

Lemma late_choice_drops_newer_handle_witness :
  deferredPrompt holding_prompt1 = Some prompt1
  ∧ listening holding_prompt1 = true
  ∧ choice_completes {| outcome := dismissed; platform := "web" |}
      holding_prompt1 = true
  ∧ deferredPrompt
      (step (step (exec installPWA holding_prompt1)
                  (BeforeInstallPrompt prompt2))
            (UserChoiceSettled prompt1
               {| outcome := dismissed; platform := "web" |})) = None.
Proof.
  split; [by vm_compute|]. split; [by vm_compute|]. split; [by vm_compute|].
  pose proof (late_choice_drops_newer_handle holding_prompt1 prompt1 prompt2
                {| outcome := dismissed; platform := "web" |}
                ltac:(by vm_compute) ltac:(by vm_compute)
                ltac:(by vm_compute)) as (_ & Hd & _).
  exact Hd.
Defined.

(** ** Reset outside standalone mode *)

Lemma click_reset_reloads (w : World) :
  standalone_of (host w) = false →
  isInstalled w || isStandalone w = true →
  step w (Click h_uninstallPWA) =
  load (host w) (delete PWA_INSTALLED (localStorage w))
       (effects w ++ [Alert CLEARED_MSG; Reload]).
Proof.
  intros Hs Hb. cbn [step]. rewrite clickable_uninstall, Hb.
  unfold settle_navigation. cbn [handler_body].
  rewrite uninstallPWA_unfold. cbn. by rewrite Hs.
Qed.

(** X12: when the platform is not in standalone mode, a click on the reset
    (or uninstall) button ends in a reloaded page that shows the
    not-installed panel with the install button disabled.  A handle held
    before is gone, pending callbacks and timers are dropped with the old
    document, and a click on install does nothing until the host notifies
    again. *)
Theorem reset_returns_to_not_installed (w : World) :
  standalone_of (host w) = false →
  isInstalled w || isStandalone w = true →
  let w' := step w (Click h_uninstallPWA) in
  panels (render w') = [panel_browser]
  ∧ buttons (render w') =
      [{| className := "install-btn"; disabled := true;
          onClick := h_installPWA;
          caption := "⏳ Waiting for install prompt..." |}]
  ∧ deferredPrompt w' = None
  ∧ awaiting w' = []
  ∧ timers w' = 0
  ∧ localStorage w' !! PWA_INSTALLED = None
  ∧ step w' (Click h_installPWA) = w'.
Proof.
  intros Hs Hb w'. subst w'. rewrite (click_reset_reloads w Hs Hb).
  rewrite panels_render, buttons_render. cbn [step].
  rewrite clickable_install, load_unfold. cbn.
  rewrite Hs, persisted_flag_delete. cbn.
  split_and!; try done. apply lookup_delete_eq.
Qed.

Lemma reset_returns_to_not_installed_witness :
  standalone_of (host (open_page browser_tab {[PWA_INSTALLED := "true"]})) = false
  ∧ panels (render (step (open_page browser_tab {[PWA_INSTALLED := "true"]})
                         (Click h_uninstallPWA))) = [panel_browser].
Proof.
  split; [reflexivity|].
  pose proof (reset_returns_to_not_installed
                (open_page browser_tab {[PWA_INSTALLED := "true"]})
                eq_refl eq_refl) as (Hp & _).
  exact Hp.
Defined.

(** Reduces field accesses on explicit pages, and nothing else. *)
Ltac world_simpl :=
  cbv [exec setAwaiting after_choice accepts_flag marked_installed outcome];
  cbn [fst snd host localStorage deferredPrompt isStandalone isInstalled
       listening awaiting timers sw_pending reloading effects].

Lemma step_listening_before_install (w : World) (e : BeforeInstallPromptEvent) :
  listening w = true →
  step w (BeforeInstallPrompt e) = exec (handleBeforeInstall e) w.
Proof. intros Hl. cbn [step]. by rewrite Hl. Qed.

Lemma step_settled (w : World) (e : BeforeInstallPromptEvent) (choice : UserChoice) :
  step w (UserChoiceSettled e choice) = exec (settleUserChoice e choice) w.
Proof. reflexivity. Qed.

(** X13: install and reset are inverse on storage.  From a page opened
    outside standalone mode on a store without the install key that accepts
    the write of the flag, an accepted install followed by a reset ends in
    the page a load on the original store gives: same store, same cells,
    same view; only the log of host calls is longer. *)
Theorem install_then_reset_round_trip (h : Host) (s : gmap string string)
    (e : BeforeInstallPromptEvent) (pf : string) :
  standalone_of h = false →
  s !! PWA_INSTALLED = None →
  storage_accepts h s PWA_INSTALLED "true" = true →
  let w := run (open_page h s)
               [BeforeInstallPrompt e; Click h_installPWA;
                UserChoiceSettled e {| outcome := accepted; platform := pf |};
                Click h_uninstallPWA] in
  w = load h s (effects (open_page h s) ++
                [PreventDefault e; Prompt e; Alert CLEARED_MSG; Reload])
  ∧ localStorage w = s
  ∧ render w = render (open_page h s).
Proof.
  intros Hs Hk Ha w.
  assert (Hw : w = load h s (effects (open_page h s) ++
                 [PreventDefault e; Prompt e; Alert CLEARED_MSG; Reload])).
  { subst w. cbn [run foldl].
    set (w0 := open_page h s).
    assert (H0 : host w0 = h ∧ localStorage w0 = s ∧ listening w0 = true
                 ∧ isStandalone w0 = false ∧ isInstalled w0 = false
                 ∧ reloading w0 = false).
    { subst w0. unfold open_page. rewrite load_unfold. cbn.
      by rewrite Hs, (persisted_flag_absent s Hk). }
    destruct H0 as (Hh0 & Hs0 & Hl0 & Hst0 & Hi0 & Hr0). clearbody w0.
    rewrite (step_listening_before_install w0 e Hl0), handleBeforeInstall_unfold.
    rewrite (click_install_enabled _ e) by done.
    rewrite (installPWA_some _ e) by done. world_simpl.
    rewrite step_settled, settleUserChoice_awaited
      by (world_simpl; apply elem_of_app; right; apply elem_of_cons; by left).
    world_simpl. rewrite Hh0, Hs0, Ha.
    rewrite click_reset_reloads by (world_simpl; by rewrite ?Hs).
    world_simpl.
    rewrite (delete_insert_id s _ _ Hk).
    by rewrite <- !app_assoc. }
  rewrite Hw. split_and!; [done|apply load_localStorage|].
  unfold open_page. apply render_ext; by rewrite !load_unfold.
Qed.

Lemma install_then_reset_round_trip_witness :
  standalone_of browser_tab = false
  ∧ ({["theme" := "dark"]} : gmap string string) !! PWA_INSTALLED = None
  ∧ storage_accepts browser_tab {["theme" := "dark"]} PWA_INSTALLED "true"
    = true
  ∧ localStorage
      (run (open_page browser_tab {["theme" := "dark"]})
           [BeforeInstallPrompt prompt1; Click h_installPWA;
            UserChoiceSettled prompt1
              {| outcome := accepted; platform := "web" |};
            Click h_uninstallPWA]) = {["theme" := "dark"]}.
Proof.
  split; [reflexivity|]. split; [reflexivity|]. split; [reflexivity|].
  pose proof (install_then_reset_round_trip browser_tab {["theme" := "dark"]}
                prompt1 "web" eq_refl eq_refl eq_refl) as (_ & Hl & _).
  exact Hl.
Defined.

(** ** Listeners of a loaded page *)

(** X14: no handler of the component removes the listeners or leaves a
    reload outstanding: after any sequence of events on an opened page, an
    availability notification is still held as the current handle, and an
    installed notification still reaches its handler: it persists the flag
    and marks the page installed when the store accepts the write, and
    leaves the page as it is when the store does not. *)
Theorem loaded_page_keeps_listening (h : Host) (s : gmap string string)
    (evs : list Event) (e : BeforeInstallPromptEvent) :
  let w := run (open_page h s) evs in
  listening w = true
  ∧ reloading w = false
  ∧ deferredPrompt (step w (BeforeInstallPrompt e)) = Some e
  ∧ step w AppInstalled = exec (uncaught handleAppInstalled) w
  ∧ if storage_accepts (host w) (localStorage w) PWA_INSTALLED "true"
    then localStorage (step w AppInstalled) !! PWA_INSTALLED = Some "true"
         ∧ isInstalled (step w AppInstalled) = true
    else step w AppInstalled = w.
Proof.
  intros w.
  destruct (reachable_listening w (run_reachable h s evs)) as [Hl Hr].
  cbn [step]. rewrite Hl, handleBeforeInstall_unfold, handleAppInstalled_unfold.
  unfold accepts_flag. split_and!; try done.
  destruct (storage_accepts _ _ _ _); [|done].
  cbn. split; [apply lookup_insert_eq|done].
Qed.
